(** * Water-quality exploratory analysis notebook

    A shallow embedding of the notebook [01_eda_and_feature_selection]:
    the seven code cells of the notebook, run top to bottom on one kernel,
    together with the parts of pandas, os and matplotlib that the cells
    call.  The kernel's global names ([df], [numerical], ...), the standard
    output and the disk are threaded explicitly; a Python exception ends
    the run and is returned with the state it left behind.

    Numbers read from the CSV file are integers or rationals (a decimal
    literal is a rational).  The correlation matrix carries each
    coefficient twice: as the real number of exact arithmetic, and as the
    float64 value that pandas computes, with its rounding and overflow.
    [read_csv] and the drawing steps of the distribution cell are
    represented by their outcome: what they return, or the exception
    they raise. *)

From Stdlib Require Import Floats.
From Stdlib Require Import Bool String Ascii List ZArith QArith Qreals.
From Stdlib Require Import Reals Lra Lia Permutation Sorted.
Import ListNotations.

Local Close Scope Q_scope.
Local Close Scope R_scope.
Local Close Scope float_scope.
Local Open Scope string_scope.
Local Open Scope list_scope.

(* ================================================================== *)
(** * The pandas data model *)
(* ================================================================== *)

Module Pandas.

(** A value held by one cell of a table (a missing value is [None] at the
    level of [cell] below). *)
Inductive scalar : Type :=
| VInt (z : Z)
| VFloat (q : Q)
| VBool (b : bool)
| VStr (s : string).

(** [None] is NaN. *)
Definition cell : Type := option scalar.

Definition scalar_eqb (a b : scalar) : bool :=
  match a, b with
  | VInt x, VInt y => Z.eqb x y
  | VFloat x, VFloat y => Qeq_bool x y
  | VBool x, VBool y => Bool.eqb x y
  | VStr x, VStr y => String.eqb x y
  | _, _ => false
  end.

(** The hash tables behind [unique], [is_unique] and [value_counts] keep a
    single slot for NaN: two missing values count as the same value. *)
Definition cell_eqb (a b : cell) : bool :=
  match a, b with
  | None, None => true
  | Some x, Some y => scalar_eqb x y
  | _, _ => false
  end.

(** Storage types that [read_csv] infers for a column. *)
Inductive dtype : Type := int64 | float64 | bool_ | object.

(** A column, tagged by its storage type.  An integer column has no
    missing value (with one, the column is stored as float64); a text
    column is stored as [object] and may have missing values. *)
Inductive Series : Type :=
| Int64 (vs : list Z)
| Float64 (vs : list (option Q))
| Boolean (vs : list bool)
| Object (vs : list (option string)).

Definition dtype_of (s : Series) : dtype :=
  match s with
  | Int64 _ => int64
  | Float64 _ => float64
  | Boolean _ => bool_
  | Object _ => object
  end.

Definition values (s : Series) : list cell :=
  match s with
  | Int64 vs => map (fun z => Some (VInt z)) vs
  | Float64 vs => map (option_map VFloat) vs
  | Boolean vs => map (fun b => Some (VBool b)) vs
  | Object vs => map (option_map VStr) vs
  end.

Definition len (s : Series) : nat := length (values s).

(** A table: its columns in order, each with its name. *)
Definition DataFrame : Type := list (string * Series).

(** [pd.DataFrame()] *)
Definition empty_frame : DataFrame := [].

(** [df.columns] *)
Definition columns (t : DataFrame) : list string := map fst t.

(** [len(df.index)]: the columns of a table have one length. *)
Definition nrows (t : DataFrame) : nat :=
  match t with
  | [] => 0
  | (_, s) :: _ => len s
  end.

Definition ncols (t : DataFrame) : nat := length t.

(** [df.shape] *)
Definition shape (t : DataFrame) : nat * nat := (nrows t, ncols t).

(** [df.empty]: some axis has length 0. *)
Definition empty (t : DataFrame) : bool :=
  (nrows t =? 0)%nat || (ncols t =? 0)%nat.

(** [name in df.columns] *)
Definition contains (name : string) (l : list string) : bool :=
  existsb (String.eqb name) l.

(** [df[name]]: the first column of that name; [None] stands for KeyError. *)
Fixpoint getcol (t : DataFrame) (name : string) : option Series :=
  match t with
  | [] => None
  | (n, s) :: rest => if String.eqb name n then Some s else getcol rest name
  end.

(** What [read_csv] guarantees of a table: column names are pairwise
    different (repeated header names are renamed) and all columns have the
    same number of rows. *)
Fixpoint distinct_names (l : list string) : bool :=
  match l with
  | [] => true
  | n :: rest => negb (contains n rest) && distinct_names rest
  end.

Definition well_formed (t : DataFrame) : bool :=
  distinct_names (columns t)
  && forallb (fun c => (len (snd c) =? nrows t)%nat) t.

(** ** [select_dtypes] *)

(** The two selectors the notebook passes as [include=]. *)
Inductive selector : Type := sel_object | sel_number.

(** ['number'] selects the integer and floating types; numpy's boolean type
    is not a subtype of [np.number].  ['object'] selects object columns only. *)
Definition selects (sel : selector) (d : dtype) : bool :=
  match sel, d with
  | sel_object, object => true
  | sel_number, int64 => true
  | sel_number, float64 => true
  | _, _ => false
  end.

Definition select_dtypes (include : selector) (t : DataFrame) : DataFrame :=
  filter (fun c => selects include (dtype_of (snd c))) t.

(** ** Uniqueness *)

(** [Series.unique()]: the distinct values in order of first appearance;
    [seen] is the hash table filled so far. *)
Fixpoint unique_from (seen : list cell) (l : list cell) : list cell :=
  match l with
  | [] => seen
  | x :: rest =>
      if existsb (cell_eqb x) seen then unique_from seen rest
      else unique_from (seen ++ [x]) rest
  end.

Definition unique (s : Series) : list cell := unique_from [] (values s).

(** [Series.nunique(dropna=False)] *)
Definition nunique (s : Series) : nat := length (unique s).

(** [Series.is_unique]: no value occurs twice; the scan stops at the first
    value already seen. *)
Fixpoint no_repeat_from (seen : list cell) (l : list cell) : bool :=
  match l with
  | [] => true
  | x :: rest =>
      if existsb (cell_eqb x) seen then false
      else no_repeat_from (seen ++ [x]) rest
  end.

Definition is_unique (s : Series) : bool := no_repeat_from [] (values s).

(** ** Null counts and value counts *)

Definition is_null (c : cell) : bool :=
  match c with None => true | Some _ => false end.

(** [df.isnull().sum()] *)
Definition null_counts (t : DataFrame) : list (string * nat) :=
  map (fun c => (fst c, length (filter is_null (values (snd c))))) t.

Fixpoint dropna (l : list cell) : list scalar :=
  match l with
  | [] => []
  | Some v :: rest => v :: dropna rest
  | None :: rest => dropna rest
  end.

Fixpoint tally (v : scalar) (l : list (scalar * nat)) : list (scalar * nat) :=
  match l with
  | [] => [(v, 1%nat)]
  | (w, n) :: rest =>
      if scalar_eqb v w then (w, S n) :: rest else (w, n) :: tally v rest
  end.

(** The counts of the distinct values, in order of first appearance. *)
Definition tallies (s : Series) : list (scalar * nat) :=
  fold_left (fun acc v => tally v acc) (dropna (values s)) [].

(** [e] goes in front of the first entry that does not count more: among
    the entries to its right, which appeared later, it stays first of
    those with its count. *)
Fixpoint insert_by_count (e : scalar * nat) (l : list (scalar * nat))
  : list (scalar * nat) :=
  match l with
  | [] => [e]
  | f :: rest =>
      if (snd f <=? snd e)%nat then e :: f :: rest
      else f :: insert_by_count e rest
  end.

(** [Series.value_counts()]: missing values dropped, one entry per distinct
    value, most frequent first; values with the same count stay in the
    order of their first appearance. *)
Definition value_counts (s : Series) : list (scalar * nat) :=
  fold_right insert_by_count [] (tallies s).

End Pandas.

(* ================================================================== *)
(** * Exceptions *)
(* ================================================================== *)

(** Why [read_csv] rejects a file that exists. *)
Inductive parse_error : Type :=
| EmptyDataError        (* no columns to parse from file *)
| ParserError           (* error tokenizing data *)
| UnicodeDecodeError.   (* bytes that are not UTF-8 *)

(** The drawing steps of the distribution cell on a column. *)
Inductive drawing : Type :=
| Histplot    (* sns.histplot(df[col], kde=True) *)
| Boxplot     (* sns.boxplot(y=df[col]) *)
| Rendering.  (* the drawing of the figure, titles and labels included,
                 that plt.savefig does before it opens the file *)

Inductive exn : Type :=
| FileNotFoundError (path : string)
| ReadError (e : parse_error)
| KeyError (key : string)
| NameError (name : string)
| OSError (path : string)                       (* file name too long *)
| FileExistsError (path : string)
| NotADirectoryError (path : string)
| DrawingError (d : drawing) (class : string).  (* raised inside a drawing
                                                   step; [class] names the
                                                   exception, as ValueError *)

(* ================================================================== *)
(** * Pearson correlation *)
(* ================================================================== *)

Module Corr.
Import Pandas.

(** The numeric view of a column ([None] when it has none).  Boolean
    columns count as numeric data here, text columns do not. *)
Definition to_numeric (s : Series) : option (list (option R)) :=
  match s with
  | Int64 vs => Some (map (fun z => Some (IZR z)) vs)
  | Float64 vs => Some (map (option_map Q2R) vs)
  | Boolean vs => Some (map (fun b : bool => Some (if b then 1%R else 0%R)) vs)
  | Object _ => None
  end.

(** [df._get_numeric_data()], the frame that [corr(numeric_only=True)]
    works on. *)
Fixpoint get_numeric_data (t : DataFrame) : list (string * list (option R)) :=
  match t with
  | [] => []
  | (n, s) :: rest =>
      match to_numeric s with
      | Some xs => (n, xs) :: get_numeric_data rest
      | None => get_numeric_data rest
      end
  end.

Definition sum (l : list R) : R := fold_right Rplus 0%R l.

Definition mean (l : list R) : R := (sum l / INR (length l))%R.

(** Sum of squared deviations from the mean. *)
Definition ssqdm (l : list R) : R :=
  sum (map (fun x => ((x - mean l) * (x - mean l))%R) l).

(** The rows on which both columns have a value. *)
Fixpoint complete_pairs (xs ys : list (option R)) : list (R * R) :=
  match xs, ys with
  | Some x :: xs', Some y :: ys' => (x, y) :: complete_pairs xs' ys'
  | _ :: xs', _ :: ys' => complete_pairs xs' ys'
  | _, _ => []
  end.

(** One entry of the matrix in exact arithmetic: Pearson's coefficient
    over the complete pairs; NaN ([None]) with no observation
    ([min_periods] is 1) or when the divisor is zero. *)
Definition pearson (xs ys : list (option R)) : option R :=
  let ps := complete_pairs xs ys in
  let vx := map fst ps in
  let vy := map snd ps in
  match ps with
  | [] => None
  | _ :: _ =>
      let covxy :=
        sum (map (fun p => ((fst p - mean vx) * (snd p - mean vy))%R) ps) in
      let divisor := sqrt (ssqdm vx * ssqdm vy) in
      if Req_dec_T divisor 0%R then None else Some (covxy / divisor)%R
  end.

(** ** The computation in float64

    [nancorr] of pandas: for each pair of columns one pass of Welford's
    method over the rows in which both values are finite, then the
    quotient of the co-moment by the square root of the product of the
    two sums of squared deviations. *)

(** The float64 nearest to an integer. *)
Definition float64_of_Z (z : Z) : float :=
  SF2Prim (binary_normalize prec emax z 0 false).

(** The float64 of a rational: the quotient, rounded, of the float64
    values of its numerator and denominator (the nearest float64 when
    both are float64 values themselves). *)
Definition float64_of_Q (q : Q) : float :=
  PrimFloat.div (float64_of_Z (Qnum q)) (float64_of_Z (Zpos (Qden q))).

(** [to_numpy(dtype=float)] of a column of numeric data. *)
Definition to_float64 (s : Series) : option (list float) :=
  match s with
  | Int64 vs => Some (map float64_of_Z vs)
  | Float64 vs =>
      Some (map (fun v : option Q =>
                   match v with
                   | Some q => float64_of_Q q
                   | None => nan
                   end) vs)
  | Boolean vs => Some (map (fun b : bool => if b then 1%float else 0%float) vs)
  | Object _ => None
  end.

Fixpoint get_numeric_float64 (t : DataFrame) : list (list float) :=
  match t with
  | [] => []
  | (_, s) :: rest =>
      match to_float64 s with
      | Some xs => xs :: get_numeric_float64 rest
      | None => get_numeric_float64 rest
      end
  end.

(** The running values of the pass. *)
Record welford : Type := {
  nobs : Z;
  meanx : float;
  meany : float;
  ssqdmx : float;
  ssqdmy : float;
  covxy : float
}.

Definition welford_start : welford :=
  {| nobs := 0; meanx := 0%float; meany := 0%float;
     ssqdmx := 0%float; ssqdmy := 0%float; covxy := 0%float |}.

(** One row: skipped unless both values are finite. *)
Definition welford_step (a : welford) (vx vy : float) : welford :=
  if is_finite vx && is_finite vy then
    let n := (nobs a + 1)%Z in
    let dx := (vx - meanx a)%float in
    let dy := (vy - meany a)%float in
    let mx := (meanx a + 1 / float64_of_Z n * dx)%float in
    let my := (meany a + 1 / float64_of_Z n * dy)%float in
    {| nobs := n; meanx := mx; meany := my;
       ssqdmx := (ssqdmx a + (vx - mx) * dx)%float;
       ssqdmy := (ssqdmy a + (vy - my) * dy)%float;
       covxy := (covxy a + (vx - mx) * dy)%float |}
  else a.

Definition welford_pass (a : welford) (xs ys : list float) : welford :=
  fold_left (fun b p => welford_step b (fst p) (snd p)) (combine xs ys) a.

(** The coefficient is kept within [-1, 1]. *)
Definition clip (val : float) : float :=
  if PrimFloat.ltb 1%float val then 1%float
  else if PrimFloat.ltb val (-1)%float then (-1)%float
  else val.

(** One entry of the matrix; NaN without an observation or when the
    divisor compares equal to zero. *)
Definition coefficient (xs ys : list float) : float :=
  let a := welford_pass welford_start xs ys in
  if (nobs a <? 1)%Z then nan
  else
    let divisor := PrimFloat.sqrt (ssqdmx a * ssqdmy a)%float in
    if negb (PrimFloat.eqb divisor 0%float) then clip (covxy a / divisor)%float
    else nan.





(** The matrix: the entry of row [xi] and column [yi] is computed for
    [yi <= xi] and stored at both places. *)
Definition nancorr (cols : list (list float)) : list (list float) :=
  let K := length cols in
  map (fun xi =>
         map (fun yi =>
                if (yi <=? xi)%nat
                then coefficient (nth xi cols []) (nth yi cols [])
                else coefficient (nth yi cols []) (nth xi cols []))
             (seq 0 K))
      (seq 0 K).

(** A square table of coefficients; [labels] names both the rows and the
    columns.  [rows] holds the coefficients of exact arithmetic, [rows64]
    the values computed in float64. *)
Record matrix : Type := {
  labels : list string;
  rows : list (list (option R));
  rows64 : list (list float)
}.

(** [df.corr(numeric_only=True)] *)
Definition corr (t : DataFrame) : matrix :=
  let num := get_numeric_data t in
  {| labels := map fst num;
     rows := map (fun cx => map (fun cy => pearson (snd cx) (snd cy)) num) num;
     rows64 := nancorr (get_numeric_float64 t) |}.

(** The float64 entry at row [i], column [j] (NaN outside the table). *)
Definition entry64 (m : matrix) (i j : nat) : float :=
  nth j (nth i (rows64 m) []) nan.

(** Entry at row [i], column [j] (NaN outside the table). *)
Definition entry (m : matrix) (i j : nat) : option R :=
  nth j (nth i (rows m) []) None.

Fixpoint index_of (k : string) (l : list string) : option nat :=
  match l with
  | [] => None
  | n :: rest =>
      if String.eqb k n then Some 0
      else option_map S (index_of k rest)
  end.

(** [m.loc[a, b]] *)
Definition loc (m : matrix) (a b : string) : option (option R) :=
  match index_of a (labels m), index_of b (labels m) with
  | Some i, Some j => Some (entry m i j)
  | _, _ => None
  end.

(** A labelled sequence of coefficients. *)
Definition series : Type := list (string * option R).

(** [m[k]]: the column labelled [k], indexed by the row labels. *)
Definition getitem (m : matrix) (k : string) : exn + series :=
  match index_of k (labels m) with
  | None => inl (KeyError k)
  | Some j => inr (combine (labels m) (map (fun r => nth j r None) (rows m)))
  end.


(** [a] may stand before [b] in descending order with NaN last. *)
Definition desc_order (a b : option R) : Prop :=
  match a, b with
  | _, None => True
  | None, Some _ => False
  | Some x, Some y => (y <= x)%R
  end.

Definition desc_order_dec (a b : option R) : {desc_order a b} + {~ desc_order a b}.
Proof.
  destruct a as [x|], b as [y|]; simpl.
  - apply Rle_dec.
  - left; exact I.
  - right; intro H; exact H.
  - left; exact I.
Defined.

Fixpoint insert_desc (e : string * option R) (l : series) : series :=
  match l with
  | [] => [e]
  | f :: rest =>
      if desc_order_dec (snd e) (snd f) then e :: f :: rest
      else f :: insert_desc e rest
  end.

(** [s.sort_values(ascending=False)]: largest first, NaN at the end. *)
Definition sort_values_desc (s : series) : series :=
  fold_right insert_desc [] s.

(** [Series.var()]: sample variance of the values present, NaN with fewer
    than two of them. *)
Fixpoint present (xs : list (option R)) : list R :=
  match xs with
  | [] => []
  | Some x :: rest => x :: present rest
  | None :: rest => present rest
  end.

Definition var (xs : list (option R)) : option R :=
  let l := present xs in
  if (length l <=? 1)%nat then None
  else Some (ssqdm l / (INR (length l) - 1))%R.

End Corr.

(* ================================================================== *)
(** * The disk *)
(* ================================================================== *)

Module Disk.

(** Directories and regular files, by path; permissions are left out,
    and a path is taken as it is written (the notebook's own paths have
    no ["."], [".."] or doubled ["/"] in them).
    [path_exists] and [makedirs] below are [os.path.exists] and
    [os.makedirs] on a disk where no regular file stands at the path of a
    directory; [os_path_exists] and [os_makedirs] further down are the
    two calls on any disk, with the exceptions of [os.mkdir]. *)
Record filesystem : Type := {
  dirs : list string;
  files : list string
}.

Definition mem (p : string) (l : list string) : bool :=
  existsb (String.eqb p) l.

Definition add (p : string) (l : list string) : list string :=
  if mem p l then l else l ++ [p].

(** [os.path.exists(p)] for the path of a directory. *)
Definition path_exists (fs : filesystem) (p : string) : bool := mem p (dirs fs).

Definition slash : ascii := "/"%char.

(** The proper prefixes of [p] that end just before a ["/"], shortest
    first; [pre] is the part of the path already walked. *)
Fixpoint ancestors_from (pre p : string) : list string :=
  match p with
  | EmptyString => []
  | String c r =>
      if Ascii.eqb c slash then pre :: ancestors_from (pre ++ "/") r
      else ancestors_from (pre ++ String c EmptyString) r
  end.

(** [os.makedirs(p)]: the missing directories on the way, then [p]. *)
Definition makedirs (p : string) (fs : filesystem) : filesystem :=
  {| dirs := fold_left (fun d a => add a d) (ancestors_from "" p ++ [p]) (dirs fs);
     files := files fs |}.

(** The directory part of a path: what stands before its last ["/"];
    [None] when the path has no ["/"]. *)
Fixpoint dirname (p : string) : option string :=
  match p with
  | EmptyString => None
  | String c r =>
      match dirname r with
      | Some d => Some (String c d)
      | None => if Ascii.eqb c slash then Some "" else None
      end
  end.

(** [os.path.exists(p)] on any disk: a directory or a regular file
    stands at [p]. *)
Definition os_path_exists (fs : filesystem) (p : string) : bool :=
  mem p (dirs fs) || mem p (files fs).

(** [os.mkdir(p)]: the path must be free and its parent a directory. *)
Definition mkdir (p : string) (fs : filesystem) : exn + filesystem :=
  if os_path_exists fs p then inl (FileExistsError p)
  else
    let made := {| dirs := dirs fs ++ [p]; files := files fs |} in
    match dirname p with
    | None => inr made
    | Some d =>
        if mem d (dirs fs) then inr made
        else if mem d (files fs) then inl (NotADirectoryError p)
        else inl (FileNotFoundError p)
    end.

(** [os.makedirs(name)], with [heads] the proper prefixes of [name],
    longest first: the head is made first when nothing stands there (a
    FileExistsError of that call is passed over), then [name] itself. *)
Fixpoint makedirs_chain (heads : list string) (name : string) (fs : filesystem)
  : exn + filesystem :=
  match heads with
  | [] => mkdir name fs
  | head :: rest =>
      if os_path_exists fs head then mkdir name fs
      else
        match makedirs_chain rest head fs with
        | inr fs' => mkdir name fs'
        | inl (FileExistsError _) => mkdir name fs
        | inl e => inl e
        end
  end.

Definition os_makedirs (p : string) (fs : filesystem) : exn + filesystem :=
  makedirs_chain (rev (ancestors_from "" p)) p fs.

(** The last component of a path: what stands after its last ["/"]. *)
Fixpoint basename (p : string) : string :=
  match p with
  | EmptyString => EmptyString
  | String c r =>
      match dirname r with
      | Some _ => basename r
      | None => if Ascii.eqb c slash then r else p
      end
  end.

(** The longest file name, in bytes, that the file system takes. *)
Definition name_max : nat := 255.

Definition fits (p : string) : bool :=
  (String.length (basename p) <=? name_max)%nat.

(** Whether a file can be created at [p]: its directory has to exist. *)
Definition writable (fs : filesystem) (p : string) : bool :=
  match dirname p with
  | None => true
  | Some d => path_exists fs d
  end.

(** The file is created, or replaced when it exists already. *)
Definition write_file (p : string) (fs : filesystem) : filesystem :=
  {| dirs := dirs fs; files := add p (files fs) |}.

End Disk.

(* ================================================================== *)
(** * The notebook *)
(* ================================================================== *)

Module Notebook.
Import Pandas Corr Disk.

(** A line feed, for the ["\n"] that opens several messages. *)
Definition nl : string := String (ascii_of_nat 10) EmptyString.

(** What a figure shows when it is saved or displayed. *)
Inductive figure : Type :=
| Heatmap (title : string) (m : matrix)
| CountPlot (title : string) (x : string) (order : list scalar)
| HistBox (col : string).

(** One item of the cells' output, in the order produced. *)
Inductive printed : Type :=
| Text (s : string)
| TextShape (s : string) (sh : nat * nat)
| TextNames (s : string) (names : list string)
| NameList (names : list string)
| InfoTable (t : DataFrame)
| DescribeTable (t : DataFrame)
| NullCountTable (l : list (string * nat))
| CorrSeries (s : series)
| CountTable (l : list (scalar * nat))
| Display (f : figure).

(** What lies at the path of the dataset: nothing, a file that [read_csv]
    rejects, or a file that it parses to a table. *)
Inductive csv_file : Type :=
| Missing
| Malformed (e : parse_error)
| Table (t : DataFrame).

Definition data_path : string := "data/raw/water_quality.csv".
Definition figures_dir : string := "reports/figures".
Definition heatmap_path : string := "reports/figures/correlation_heatmap.png".
Definition target_path : string :=
  "reports/figures/target_variable_distribution.png".
Definition target : string := "Water Quality Classification".

(** The first statement of the load cell on any disk:
    [if not os.path.exists('reports/figures'): os.makedirs('reports/figures')]. *)
Definition create_figures_dir (fs : filesystem) : exn + filesystem :=
  if negb (os_path_exists fs figures_dir) then os_makedirs figures_dir fs
  else inr fs.

(** [pd.read_csv(data_path)] *)
Definition read_csv (f : csv_file) : exn + DataFrame :=
  match f with
  | Missing => inl (FileNotFoundError data_path)
  | Malformed e => inl (ReadError e)
  | Table t => inr t
  end.

(** How the plotting library answers a drawing step of the distribution
    cell on the column named [col]: [None] when it draws, or the class of
    the exception that it raises.  The step is represented by its
    outcome, as [read_csv] is. *)
Definition renderer_type : Type := drawing -> string -> Series -> option string.

(** The kernel: the disk, the dataset file and the plotting library in
    front of it, the global names of the notebook ([None] while a name is
    not bound) and everything printed or displayed so far. *)
Record state : Type := {
  disk : filesystem;
  source : csv_file;
  renderer : renderer_type;
  df : option DataFrame;
  categorical : option (list string);
  numerical : option (list string);
  correlation : option matrix;
  wqi_corr : option series;
  out : list printed
}.

Definition set_disk (fs : filesystem) (s : state) : state :=
  {| disk := fs; source := source s; renderer := renderer s; df := df s;
     categorical := categorical s; numerical := numerical s;
     correlation := correlation s; wqi_corr := wqi_corr s; out := out s |}.

Definition set_df (t : DataFrame) (s : state) : state :=
  {| disk := disk s; source := source s; renderer := renderer s; df := Some t;
     categorical := categorical s; numerical := numerical s;
     correlation := correlation s; wqi_corr := wqi_corr s; out := out s |}.

Definition set_categorical (l : list string) (s : state) : state :=
  {| disk := disk s; source := source s; renderer := renderer s; df := df s;
     categorical := Some l; numerical := numerical s;
     correlation := correlation s; wqi_corr := wqi_corr s; out := out s |}.

Definition set_numerical (l : list string) (s : state) : state :=
  {| disk := disk s; source := source s; renderer := renderer s; df := df s;
     categorical := categorical s; numerical := Some l;
     correlation := correlation s; wqi_corr := wqi_corr s; out := out s |}.

Definition set_correlation (m : matrix) (s : state) : state :=
  {| disk := disk s; source := source s; renderer := renderer s; df := df s;
     categorical := categorical s; numerical := numerical s;
     correlation := Some m; wqi_corr := wqi_corr s; out := out s |}.

Definition set_wqi_corr (w : series) (s : state) : state :=
  {| disk := disk s; source := source s; renderer := renderer s; df := df s;
     categorical := categorical s; numerical := numerical s;
     correlation := correlation s; wqi_corr := Some w; out := out s |}.

Definition add_out (p : printed) (s : state) : state :=
  {| disk := disk s; source := source s; renderer := renderer s; df := df s;
     categorical := categorical s; numerical := numerical s;
     correlation := correlation s; wqi_corr := wqi_corr s;
     out := out s ++ [p] |}.

(** A plotting library that draws whatever it is given. *)
Definition draws_all : renderer_type := fun _ _ _ => None.

(** A fresh kernel in front of a given disk and dataset file, with a
    plotting library that draws whatever it is given. *)
Definition fresh (fs : filesystem) (f : csv_file) : state :=
  {| disk := fs; source := f; renderer := draws_all;
     df := None; categorical := None;
     numerical := None; correlation := None; wqi_corr := None; out := [] |}.

(** The kernel restarted: no name bound, no output; the disk, the dataset
    file and the plotting library are as they were. *)
Definition restart (s : state) : state :=
  {| disk := disk s; source := source s; renderer := renderer s;
     df := None; categorical := None;
     numerical := None; correlation := None; wqi_corr := None; out := [] |}.

(** ** Statements: state and exceptions *)

Inductive result (A : Type) : Type :=
| Ok (a : A) (s : state)
| Raise (e : exn) (s : state).
Arguments Ok {A} a s.
Arguments Raise {A} e s.

Definition M (A : Type) : Type := state -> result A.

Definition ret {A : Type} (a : A) : M A := fun s => Ok a s.

Definition bind {A B : Type} (m : M A) (k : A -> M B) : M B :=
  fun s =>
    match m s with
    | Ok a s' => k a s'
    | Raise e s' => Raise e s'
    end.

Definition raise {A : Type} (e : exn) : M A := fun s => Raise e s.

Declare Scope nb_scope.
Delimit Scope nb_scope with nb.
Notation "x <- m ;; k" := (bind m (fun x => k))
  (at level 61, m at next level, right associativity) : nb_scope.
Notation "m ;; k" := (bind m (fun _ => k))
  (at level 61, right associativity) : nb_scope.
Local Open Scope nb_scope.

Definition modify (f : state -> state) : M unit := fun s => Ok tt (f s).

Definition lift {A : Type} (r : exn + A) : M A :=
  match r with
  | inl e => raise e
  | inr a => ret a
  end.

(** Reading a global name; NameError while it is not bound. *)
Definition global {A : Type} (name : string) (get : state -> option A) : M A :=
  fun s =>
    match get s with
    | Some a => Ok a s
    | None => Raise (NameError name) s
    end.

Definition is_FileNotFoundError (e : exn) : bool :=
  match e with FileNotFoundError _ => true | _ => false end.

(** [try: body  except FileNotFoundError: handler] *)
Definition try_except_FileNotFoundError (body handler : M unit) : M unit :=
  fun s =>
    match body s with
    | Ok a s' => Ok a s'
    | Raise e s' => if is_FileNotFoundError e then handler s' else Raise e s'
    end.

(** [for x in l: body x] *)
Fixpoint for_each {X : Type} (l : list X) (body : X -> M unit) : M unit :=
  match l with
  | [] => ret tt
  | x :: rest => body x ;; for_each rest body
  end.

(** A loop that carries one local variable. *)
Fixpoint for_each_with {X B : Type} (l : list X) (b : B) (body : B -> X -> M B)
  : M B :=
  match l with
  | [] => ret b
  | x :: rest => b' <- body b x ;; for_each_with rest b' body
  end.

Definition print (p : printed) : M unit := modify (add_out p).

(** [df[name]] *)
Definition column (t : DataFrame) (name : string) : M Series :=
  match getcol t name with
  | Some s => ret s
  | None => raise (KeyError name)
  end.

(** [plt.savefig(path)]: opening the file fails when its directory is not
    there, and when its name is longer than the file system takes. *)
Definition savefig (path : string) : M unit :=
  fun s =>
    if writable (disk s) path then
      if fits path then Ok tt (set_disk (write_file path (disk s)) s)
      else Raise (OSError path) s
    else Raise (FileNotFoundError path) s.

(** A drawing step of the distribution cell on the column named [col]. *)
Definition draw (d : drawing) (col : string) (c : Series) : M unit :=
  fun s =>
    match renderer s d col c with
    | None => Ok tt s
    | Some class => Raise (DrawingError d class) s
    end.

(** [plt.savefig(path, bbox_inches='tight')] on the figure of a column:
    the figure is drawn, then the file is opened. *)
Definition savefig_drawn (col : string) (c : Series) (path : string) : M unit :=
  draw Rendering col c ;; savefig path.

(** [plt.show()] *)
Definition show (f : figure) : M unit := print (Display f).

(** ** The code cells *)

(** 1. Create directories and load the dataset.  The first statement is
    written for a disk where no regular file stands at ["reports"] or at
    ["reports/figures"]; there it is [create_figures_dir]. *)
Definition cell1 : M unit :=
  fs <- (fun s => Ok (disk s) s) ;;
  (if negb (path_exists fs figures_dir)
   then modify (fun s => set_disk (makedirs figures_dir (disk s)) s)
   else ret tt) ;;
  try_except_FileNotFoundError
    (src <- (fun s => Ok (source s) s) ;;
     t <- lift (read_csv src) ;;
     modify (set_df t) ;;
     print (Text "✅ Dataset loaded successfully."))
    (print (Text "❌ Error: 'data/raw/water_quality.csv' not found.") ;;
     print (Text "Please ensure the dataset is in the correct directory.") ;;
     modify (set_df empty_frame)).

(** 2. Basic dataset overview. *)
Definition cell2 : M unit :=
  t <- global "df" df ;;
  if negb (empty t) then
    print (TextShape "📊 Shape of Dataset:" (shape t)) ;;
    print (Text (nl ++ "🧾 Dataset Info:")) ;;
    print (InfoTable t) ;;
    print (Text (nl ++ "📈 Summary Statistics:")) ;;
    print (DescribeTable t) ;;
    print (Text (nl ++ "📋 Columns in Dataset:")) ;;
    print (NameList (columns t)) ;;
    print (Text (nl ++ "❓ Missing Values Check:")) ;;
    print (NullCountTable (null_counts t))
  else ret tt.

(** 3. Identify feature types. *)
Definition cell3 : M unit :=
  t <- global "df" df ;;
  if negb (empty t) then
    modify (set_categorical (columns (select_dtypes sel_object t))) ;;
    modify (set_numerical (columns (select_dtypes sel_number t))) ;;
    num <- global "numerical" numerical ;;
    print (TextNames (nl ++ "🔢 Numerical Columns:") num) ;;
    cat <- global "categorical" categorical ;;
    print (TextNames "🔠 Categorical Columns:" cat)
  else ret tt.

Definition identifier_message (col : string) : string :=
  "'" ++ col ++ "' is likely an identifier column as all its values are unique.".

(** 4. Identifier check.  The local variable of the loop is
    [is_identifier_found]. *)
Definition cell4 : M unit :=
  t <- global "df" df ;;
  if negb (empty t) then
    print (Text (nl ++ "🆔 Checking for Identifier Columns...")) ;;
    is_identifier_found <-
      for_each_with (columns t) false
        (fun found col =>
           s <- column t col ;;
           if is_unique s then
             print (Text (identifier_message col)) ;;
             ret true
           else ret found) ;;
    if negb is_identifier_found
    then print (Text "No identifier columns found.")
    else ret tt
  else ret tt.

Definition heatmap_title : string :=
  "Correlation Heatmap of Water Quality Features".

(** 5.1. WQI correlation analysis. *)
Definition cell5 : M unit :=
  t <- global "df" df ;;
  if contains "WQI" (columns t) then
    modify (set_correlation (corr t)) ;;
    m <- global "correlation" correlation ;;
    c <- lift (getitem m "WQI") ;;
    modify (set_wqi_corr (sort_values_desc c)) ;;
    print (Text (nl ++ "🔗 Correlation with WQI:")) ;;
    w <- global "wqi_corr" wqi_corr ;;
    print (CorrSeries w) ;;
    savefig heatmap_path ;;
    print (Text (nl ++ "✅ Correlation heatmap saved to 'reports/figures/correlation_heatmap.png'")) ;;
    show (Heatmap heatmap_title m)
  else
    print (Text "⚠️ WQI column not found. Please verify dataset.").

Definition target_title : string :=
  "Distribution of Water Quality Classification".

(** 6.1. Target variable distribution. *)
Definition cell6 : M unit :=
  t <- global "df" df ;;
  if contains target (columns t) then
    s <- column t target ;;
    let order := map fst (value_counts s) in
    savefig target_path ;;
    print (Text (nl ++ "✅ Target variable distribution plot saved to 'reports/figures/target_variable_distribution.png'")) ;;
    show (CountPlot target_title target order) ;;
    print (Text (nl ++ "🎯 Class Balance:")) ;;
    s' <- column t target ;;
    print (CountTable (value_counts s'))
  else
    print (Text "⚠️ 'Water Quality Classification' column not found.").

Definition figure_path (col : string) : string :=
  "reports/figures/distribution_" ++ col ++ ".png".

(** 7.1. Visualize numerical feature distributions. *)
Definition cell7 : M unit :=
  t <- global "df" df ;;
  if negb (empty t) then
    print (Text (nl ++ "📊 Visualizing Numerical Feature Distributions...")) ;;
    num <- global "numerical" numerical ;;
    for_each num
      (fun col =>
         c <- column t col ;;
         draw Histplot col c ;;
         c' <- column t col ;;
         draw Boxplot col c' ;;
         savefig_drawn col c' (figure_path col) ;;
         show (HistBox col)) ;;
    print (Text (nl ++ "✅ All numerical distribution plots saved to 'reports/figures/'."))
  else ret tt.

(** The whole notebook, cell after cell; the first exception stops it. *)
Definition run_all : M unit :=
  cell1 ;; cell2 ;; cell3 ;; cell4 ;; cell5 ;; cell6 ;; cell7.

(** The cells that follow the load. *)
Definition analysis : M unit :=
  cell2 ;; cell3 ;; cell4 ;; cell5 ;; cell6 ;; cell7.

(** The state in which a statement leaves the kernel, however it ends. *)
Definition final {A : Type} (r : result A) : state :=
  match r with
  | Ok _ s => s
  | Raise _ s => s
  end.

Definition completes {A : Type} (r : result A) : Prop :=
  match r with
  | Ok _ _ => True
  | Raise _ _ => False
  end.

End Notebook.

(* ================================================================== *)
(** * Vocabulary of the properties, and sample inputs *)
(* ================================================================== *)

Module Samples.
Import Pandas Corr Disk Notebook.

(** A disk with nothing on it. *)
Definition blank : filesystem := {| dirs := []; files := [] |}.

(** Two measurements and the index computed from them. *)
Definition readings : DataFrame :=
  [("EC", Int64 [210; 340; 560]%Z);
   ("WQI", Int64 [1; 2; 3]%Z);
   ("Water Quality Classification",
    Object [Some "Good"; Some "Good"; Some "Poor"])].

(** A table whose only column holds True/False. *)
Definition flags : DataFrame := [("potable", Boolean [true; false])].

(** A table in which the column named WQI holds text. *)
Definition graded : DataFrame :=
  [("WQI", Object [Some "good"; Some "bad"])].

(** A table with a numerical column whose name has a ["/"] in it. *)
Definition ratios : DataFrame := [("Ca/Mg", Int64 [2; 3]%Z)].

(** Two measurements with repeated values, a text column of distinct
    labels, and the index. *)
Definition labelled : DataFrame :=
  [("A", Int64 [1; 1; 2]%Z);
   ("B", Float64 [Some (1 # 2)%Q; Some (1 # 2)%Q; Some (3 # 2)%Q]);
   ("ID", Object [Some "s1"; Some "s2"; Some "s3"]);
   ("WQI", Int64 [40; 55; 40]%Z)].

(** A table with neither target column. *)
Definition untargeted : DataFrame :=
  [("pH", Float64 [Some (71 # 10)%Q; None; Some (68 # 10)%Q]);
   ("Site", Object [Some "A"; Some "B"; Some "B"])].

(** The kernel once the first statement of the load cell has run. *)
Definition after_makedirs (s : state) : state :=
  if path_exists (disk s) figures_dir then s
  else set_disk (makedirs figures_dir (disk s)) s.

(** [respects R m]: however [m] ends, the state it leaves is related by
    [R] to the state it started from. *)
Definition respects {A : Type} (R : state -> state -> Prop) (m : M A) : Prop :=
  forall s, R s (final (m s)).

(** The statement left the directories, the table and the dataset file as
    they were. *)
Definition steady (s s' : state) : Prop :=
  dirs (disk s') = dirs (disk s) /\ df s' = df s /\ source s' = source s.

(** The statement left [numerical] as it was. *)
Definition same_numerical (s s' : state) : Prop :=
  numerical s' = numerical s.

(** The kernel after a sequence of prints. *)
Definition prints (ps : list printed) (s : state) : state :=
  fold_left (fun s' p => add_out p s') ps s.

(** Whether the identifier check reports the column named [col]. *)
Definition reports_identifier (t : DataFrame) (col : string) : bool :=
  match getcol t col with
  | Some c => is_unique c
  | None => false
  end.

(** The columns the identifier check reports, in the order of the table. *)
Definition reported (t : DataFrame) : list string :=
  filter (reports_identifier t) (columns t).

Definition wqi_warning : printed :=
  Text "⚠️ WQI column not found. Please verify dataset.".

Definition target_warning : printed :=
  Text "⚠️ 'Water Quality Classification' column not found.".

(** The variance of a column, through its numeric view. *)
Definition variance (c : Series) : option R :=
  match to_numeric c with
  | Some xs => var xs
  | None => None
  end.


(** A kernel on which the load cell has run with table [t]. *)
Definition loaded (t : DataFrame) : state :=
  set_df t (fresh blank (Table t)).

(** ** Further vocabulary *)

(** What [read_csv] gives for a file with a header line and no row. *)
Definition header_only : DataFrame :=
  [("pH", Object []); ("Site", Object [])].

(** A table with one row. *)
Definition single : DataFrame :=
  [("pH", Float64 [Some (7 # 1)%Q]); ("Site", Object [Some "A"])].


(** The paths at which the notebook saves its figures. *)
Definition figure_output (p : string) : Prop :=
  p = heatmap_path \/ p = target_path \/ exists col, p = figure_path col.

(** [s'] has every file of [s] and, besides those, figures only. *)
Definition adds_figures_only (s s' : state) : Prop :=
  (forall p, In p (files (disk s)) -> In p (files (disk s'))) /\
  (forall p, In p (files (disk s')) -> In p (files (disk s)) \/ figure_output p).



(** The columns that are numeric data for [corr]: all but the text
    columns. *)
Definition non_text_columns (t : DataFrame) : list string :=
  columns (filter (fun c => match dtype_of (snd c) with
                            | object => false
                            | _ => true
                            end) t).




(** A column name of 252 characters, and a table with a numerical column
    of that name. *)
Definition long_name : string :=
  String.concat EmptyString
    (repeat "conductivity_at_25_degrees_Celsius_micro_siemens_" 5)
  ++ "cm_mean".

Definition long_named : DataFrame := [(long_name, Int64 [2; 3]%Z)].

(** A table with a numerical column that holds no value. *)
Definition unmeasured : DataFrame := [("pH", Float64 [None; None])].

(** A plotting library that raises ValueError when it is to draw the
    histogram of a column without a value. *)
Definition refuses_no_value : renderer_type :=
  fun d _ c =>
    match d with
    | Histplot =>
        match value_counts c with
        | [] => Some "ValueError"
        | _ :: _ => None
        end
    | _ => None
    end.

(** The kernel [s] in front of the plotting library [r]. *)
Definition in_front_of (r : renderer_type) (s : state) : state :=
  {| disk := disk s; source := source s; renderer := r; df := df s;
     categorical := categorical s; numerical := numerical s;
     correlation := correlation s; wqi_corr := wqi_corr s; out := out s |}.

(** No regular file stands at the path of a directory that the load cell
    needs: [os.makedirs] then succeeds. *)
Definition clear_of_files (fs : filesystem) : Prop :=
  ~ In "reports" (files fs) /\ ~ In figures_dir (files fs).

(** A figure can be saved at [p]: the directory is there and the name is
    not too long. *)
Definition savable (fs : filesystem) (p : string) : bool :=
  writable fs p && fits p.

(** The plotting library takes the step [d] on the column. *)
Definition draws (s : state) (d : drawing) (col : string) (c : Series) : bool :=
  match renderer s d col c with
  | None => true
  | Some _ => false
  end.

(** The distribution cell can plot the column named [col]: the column is
    there, the plotting library draws its histogram, its box plot and the
    figure, and the file of the figure can be saved. *)
Definition can_plot (s : state) (t : DataFrame) (col : string) : bool :=
  match getcol t col with
  | Some c =>
      draws s Histplot col c && draws s Boxplot col c
      && draws s Rendering col c && savable (disk s) (figure_path col)
  | None => false
  end.

(** The table has no column named WQI, or one that is not a text column. *)
Definition wqi_usable (t : DataFrame) : bool :=
  negb (contains "WQI" (columns t)) || contains "WQI" (non_text_columns t).

(** What the cells after the load need to run to their end on table
    [t]. *)
Definition runs_through (s : state) (t : DataFrame) : bool :=
  wqi_usable t
  && (empty t || forallb (can_plot s t) (columns (select_dtypes sel_number t))).

(** Whether the run of the whole notebook on kernel [s] ends normally:
    the figures directory can be made; and the dataset file is missing,
    or it parses to a table that the cells after the load run through. *)
Definition will_complete (s : state) : bool :=
  match create_figures_dir (disk s) with
  | inl _ => false
  | inr fs =>
      match source s with
      | Missing => true
      | Malformed _ => false
      | Table t => runs_through (set_disk fs s) t
      end
  end.

(** The body of the loop of the distribution cell, for one column. *)
Definition plot_column (t : DataFrame) (col : string) : M unit :=
  (c <- column t col ;;
   draw Histplot col c ;;
   c' <- column t col ;;
   draw Boxplot col c' ;;
   savefig_drawn col c' (figure_path col) ;;
   show (HistBox col))%nb.

(** The files that a run on table [t] writes when it runs to its end. *)
Definition figure_of (t : DataFrame) (p : string) : Prop :=
  (In "WQI" (columns t) /\ p = heatmap_path) \/
  (In target (columns t) /\ p = target_path) \/
  (empty t = false /\
   In p (map figure_path (columns (select_dtypes sel_number t)))).

(** [e] is an exception of the distribution cell on the column named
    [col]: raised by the first drawing step that the plotting library
    refuses, or, when it takes all three, by the opening of the file. *)
Definition plot_failure (s : state) (t : DataFrame) (col : string) (e : exn)
  : Prop :=
  exists c,
    getcol t col = Some c /\
    ((exists class,
         renderer s Histplot col c = Some class /\
         e = DrawingError Histplot class) \/
     (draws s Histplot col c = true /\
      exists class,
        renderer s Boxplot col c = Some class /\
        e = DrawingError Boxplot class) \/
     (draws s Histplot col c = true /\ draws s Boxplot col c = true /\
      exists class,
        renderer s Rendering col c = Some class /\
        e = DrawingError Rendering class) \/
     (draws s Histplot col c = true /\ draws s Boxplot col c = true /\
      draws s Rendering col c = true /\
      writable (disk s) (figure_path col) = false /\
      e = FileNotFoundError (figure_path col)) \/
     (draws s Histplot col c = true /\ draws s Boxplot col c = true /\
      draws s Rendering col c = true /\
      writable (disk s) (figure_path col) = true /\
      fits (figure_path col) = false /\
      e = OSError (figure_path col))).

(** The statement left alone what the cells after the load depend on. *)
Definition stable (s s' : state) : Prop :=
  dirs (disk s') = dirs (disk s) /\ df s' = df s /\
  source s' = source s /\ renderer s' = renderer s.

End Samples.

(* ================================================================== *)
(** * Properties *)
(* ================================================================== *)

Import Pandas Corr Disk Notebook Samples.
Local Open Scope nb_scope.

(** ** Column names and lookup *)

Lemma contains_In (n : string) (l : list string) :
  contains n l = true <-> In n l.
Proof.
  unfold contains. rewrite existsb_exists. split.
  - intros [x [Hx He]]. apply String.eqb_eq in He. now subst.
  - intros H. exists n. split; [assumption | apply String.eqb_refl].
Qed.

Lemma contains_not_In (n : string) (l : list string) :
  contains n l = false <-> ~ In n l.
Proof.
  rewrite <- contains_In. destruct (contains n l); intuition congruence.
Qed.

Lemma distinct_names_NoDup (l : list string) :
  distinct_names l = true -> NoDup l.
Proof.
  induction l as [|n rest IH]; simpl; intros H.
  - constructor.
  - apply andb_true_iff in H as [Hn Hr]. constructor.
    + apply negb_true_iff in Hn. now apply contains_not_In.
    + now apply IH.
Qed.

Lemma well_formed_NoDup (t : DataFrame) :
  well_formed t = true -> NoDup (columns t).
Proof.
  unfold well_formed. intros H. apply andb_true_iff in H as [H _].
  now apply distinct_names_NoDup.
Qed.

Lemma well_formed_len (t : DataFrame) (n : string) (c : Series) :
  well_formed t = true -> In (n, c) t -> len c = nrows t.
Proof.
  unfold well_formed. intros H Hin. apply andb_true_iff in H as [_ H].
  rewrite forallb_forall in H. specialize (H _ Hin). simpl in H.
  now apply Nat.eqb_eq.
Qed.

Lemma getcol_NoDup (t : DataFrame) (n : string) (c : Series) :
  NoDup (columns t) -> In (n, c) t -> getcol t n = Some c.
Proof.
  induction t as [|[m s] rest IH]; simpl; intros Hnd Hin; [contradiction|].
  inversion Hnd as [|? ? Hm Hrest]; subst.
  destruct Hin as [[= -> ->] | Hin].
  - now rewrite String.eqb_refl.
  - destruct (String.eqb n m) eqn:E.
    + apply String.eqb_eq in E. subst m. exfalso. apply Hm.
      change n with (fst (n, c)). now apply in_map.
    + now apply IH.
Qed.

Lemma getcol_columns (t : DataFrame) (n : string) :
  In n (columns t) -> exists c, getcol t n = Some c.
Proof.
  induction t as [|[m s] rest IH]; simpl; intros H; [contradiction|].
  destruct (String.eqb n m) eqn:E.
  - now exists s.
  - destruct H as [H | H].
    + subst m. now rewrite String.eqb_refl in E.
    + now apply IH.
Qed.

(** ** Uniqueness of the values of a column *)

Lemma unique_from_length_le (l seen : list cell) :
  length (unique_from seen l) <= length seen + length l.
Proof.
  revert seen. induction l as [|x rest IH]; intros seen; simpl.
  - lia.
  - destruct (existsb (cell_eqb x) seen).
    + specialize (IH seen). lia.
    + specialize (IH (seen ++ [x])). rewrite length_app in IH. simpl in IH. lia.
Qed.

Lemma no_repeat_from_length (l seen : list cell) :
  no_repeat_from seen l = true <->
  length (unique_from seen l) = length seen + length l.
Proof.
  revert seen. induction l as [|x rest IH]; intros seen; simpl.
  - split; intros; [lia | reflexivity].
  - destruct (existsb (cell_eqb x) seen).
    + pose proof (unique_from_length_le rest seen). split; [discriminate | lia].
    + rewrite IH, length_app. simpl. lia.
Qed.

Lemma is_unique_nunique (s : Series) :
  is_unique s = true <-> nunique s = len s.
Proof.
  unfold is_unique, nunique, unique, len.
  now rewrite no_repeat_from_length.
Qed.

(** ** Frame reasoning on statements *)

Section Respects.
Variable R : state -> state -> Prop.
Hypothesis R_refl : forall s, R s s.
Hypothesis R_trans : forall s1 s2 s3, R s1 s2 -> R s2 s3 -> R s1 s3.

Lemma respects_ret {A : Type} (a : A) : respects R (ret a).
Proof. intros s. apply R_refl. Qed.

Lemma respects_raise {A : Type} (e : exn) : respects R (@raise A e).
Proof. intros s. apply R_refl. Qed.

Lemma respects_lift {A : Type} (r : exn + A) : respects R (lift r).
Proof. destruct r; [apply respects_raise | apply respects_ret]. Qed.

Lemma respects_global {A : Type} (n : string) (get : state -> option A) :
  respects R (global n get).
Proof. intros s. unfold global. destruct (get s); apply R_refl. Qed.

Lemma respects_column (t : DataFrame) (n : string) : respects R (column t n).
Proof.
  unfold column. destruct (getcol t n); [apply respects_ret | apply respects_raise].
Qed.

Lemma respects_bind {A B : Type} (m : M A) (k : A -> M B) :
  respects R m -> (forall a, respects R (k a)) -> respects R (bind m k).
Proof.
  intros Hm Hk s. unfold bind. specialize (Hm s).
  destruct (m s) as [a s' | e s']; simpl in Hm.
  - eapply R_trans; [exact Hm | apply Hk].
  - exact Hm.
Qed.

Lemma respects_modify (f : state -> state) :
  (forall s, R s (f s)) -> respects R (modify f).
Proof. intros H s. apply H. Qed.

Lemma respects_if {A : Type} (b : bool) (m1 m2 : M A) :
  respects R m1 -> respects R m2 -> respects R (if b then m1 else m2).
Proof. now destruct b. Qed.

Lemma respects_for_each {X : Type} (l : list X) (body : X -> M unit) :
  (forall x, respects R (body x)) -> respects R (for_each l body).
Proof.
  intros Hb. induction l as [|x rest IH]; simpl.
  - apply respects_ret.
  - apply respects_bind; [apply Hb | intros _; exact IH].
Qed.

Lemma respects_for_each_with {X B : Type} (l : list X) (b : B)
      (body : B -> X -> M B) :
  (forall b' x, respects R (body b' x)) -> respects R (for_each_with l b body).
Proof.
  intros Hb. revert b. induction l as [|x rest IH]; intros b; simpl.
  - apply respects_ret.
  - apply respects_bind; [apply Hb | intros b'; apply IH].
Qed.

Hypothesis R_out : forall p s, R s (add_out p s).

Lemma respects_print (p : printed) : respects R (print p).
Proof. apply respects_modify. intros s. apply R_out. Qed.

Hypothesis R_file : forall p s, R s (set_disk (write_file p (disk s)) s).

Lemma respects_savefig (p : string) : respects R (savefig p).
Proof.
  intros s. unfold savefig.
  destruct (writable (disk s) p); [destruct (fits p)|]; simpl.
  - apply R_file.
  - apply R_refl.
  - apply R_refl.
Qed.

Lemma respects_draw (d : drawing) (col : string) (c : Series) :
  respects R (draw d col c).
Proof. intros s. unfold draw. destruct (renderer s d col c); apply R_refl. Qed.

Lemma respects_savefig_drawn (col : string) (c : Series) (p : string) :
  respects R (savefig_drawn col c p).
Proof.
  unfold savefig_drawn.
  apply respects_bind; [apply respects_draw | intros _; apply respects_savefig].
Qed.

Lemma respects_show (f : figure) : respects R (show f).
Proof. apply respects_print. Qed.

(** Cells that assign no global name. *)
Lemma respects_cell2 : respects R cell2.
Proof.
  unfold cell2. apply respects_bind; [apply respects_global | intros t].
  apply respects_if; [|apply respects_ret].
  repeat (apply respects_bind; [apply respects_print | intros _]).
  apply respects_print.
Qed.

Lemma respects_cell4 : respects R cell4.
Proof.
  unfold cell4. apply respects_bind; [apply respects_global | intros t].
  apply respects_if; [|apply respects_ret].
  apply respects_bind; [apply respects_print | intros _].
  apply respects_bind.
  - apply respects_for_each_with. intros found col.
    apply respects_bind; [apply respects_column | intros s].
    apply respects_if; [|apply respects_ret].
    apply respects_bind; [apply respects_print | intros _; apply respects_ret].
  - intros found. apply respects_if; [apply respects_print | apply respects_ret].
Qed.

Lemma respects_cell6 : respects R cell6.
Proof.
  unfold cell6. apply respects_bind; [apply respects_global | intros t].
  apply respects_if; [|apply respects_print].
  apply respects_bind; [apply respects_column | intros s]. cbv zeta.
  apply respects_bind; [apply respects_savefig | intros _].
  apply respects_bind; [apply respects_print | intros _].
  apply respects_bind; [apply respects_show | intros _].
  apply respects_bind; [apply respects_print | intros _].
  apply respects_bind; [apply respects_column | intros s'].
  apply respects_print.
Qed.

Lemma respects_cell7 : respects R cell7.
Proof.
  unfold cell7. apply respects_bind; [apply respects_global | intros t].
  apply respects_if; [|apply respects_ret].
  apply respects_bind; [apply respects_print | intros _].
  apply respects_bind; [apply respects_global | intros num].
  apply respects_bind; [|intros _; apply respects_print].
  apply respects_for_each. intros col.
  apply respects_bind; [apply respects_column | intros c].
  apply respects_bind; [apply respects_draw | intros _].
  apply respects_bind; [apply respects_column | intros c'].
  apply respects_bind; [apply respects_draw | intros _].
  apply respects_bind; [apply respects_savefig_drawn | intros _].
  apply respects_show.
Qed.

Hypothesis R_categorical : forall l s, R s (set_categorical l s).
Hypothesis R_numerical : forall l s, R s (set_numerical l s).

Lemma respects_cell3 : respects R cell3.
Proof.
  unfold cell3. apply respects_bind; [apply respects_global | intros t].
  apply respects_if; [|apply respects_ret].
  apply respects_bind; [apply respects_modify; intros; apply R_categorical | intros _].
  apply respects_bind; [apply respects_modify; intros; apply R_numerical | intros _].
  apply respects_bind; [apply respects_global | intros num].
  apply respects_bind; [apply respects_print | intros _].
  apply respects_bind; [apply respects_global | intros cat].
  apply respects_print.
Qed.

Hypothesis R_correlation : forall m s, R s (set_correlation m s).
Hypothesis R_wqi_corr : forall w s, R s (set_wqi_corr w s).

Lemma respects_cell5 : respects R cell5.
Proof.
  unfold cell5. apply respects_bind; [apply respects_global | intros t].
  apply respects_if; [|apply respects_print].
  apply respects_bind; [apply respects_modify; intros; apply R_correlation | intros _].
  apply respects_bind; [apply respects_global | intros m].
  apply respects_bind; [apply respects_lift | intros c].
  apply respects_bind; [apply respects_modify; intros; apply R_wqi_corr | intros _].
  apply respects_bind; [apply respects_print | intros _].
  apply respects_bind; [apply respects_global | intros w].
  apply respects_bind; [apply respects_print | intros _].
  apply respects_bind; [apply respects_savefig | intros _].
  apply respects_bind; [apply respects_print | intros _].
  apply respects_show.
Qed.

Lemma respects_analysis : respects R analysis.
Proof.
  unfold analysis.
  apply respects_bind; [apply respects_cell2 | intros _].
  apply respects_bind; [apply respects_cell3 | intros _].
  apply respects_bind; [apply respects_cell4 | intros _].
  apply respects_bind; [apply respects_cell5 | intros _].
  apply respects_bind; [apply respects_cell6 | intros _].
  apply respects_cell7.
Qed.
End Respects.

(** ** The disk *)

Lemma mem_add_same (p : string) (l : list string) : mem p (add p l) = true.
Proof.
  unfold add. destruct (mem p l) eqn:E; [exact E|].
  unfold mem. rewrite existsb_app. simpl. rewrite String.eqb_refl.
  now rewrite orb_true_r.
Qed.

Lemma makedirs_figures_dir (fs : filesystem) :
  path_exists (makedirs figures_dir fs) figures_dir = true.
Proof.
  unfold path_exists, makedirs. simpl. apply mem_add_same.
Qed.

(** ** The load cell *)

Lemma after_makedirs_exists (s : state) :
  path_exists (disk (after_makedirs s)) figures_dir = true.
Proof.
  unfold after_makedirs. destruct (path_exists (disk s) figures_dir) eqn:E.
  - exact E.
  - simpl. apply makedirs_figures_dir.
Qed.

Lemma cell1_unfold (s : state) :
  cell1 s =
  match source s with
  | Missing =>
      Ok tt (set_df empty_frame
               (add_out (Text "Please ensure the dataset is in the correct directory.")
                  (add_out (Text "❌ Error: 'data/raw/water_quality.csv' not found.")
                     (after_makedirs s))))
  | Malformed e => Raise (ReadError e) (after_makedirs s)
  | Table t =>
      Ok tt (add_out (Text "✅ Dataset loaded successfully.")
               (set_df t (after_makedirs s)))
  end.
Proof.
  unfold cell1, after_makedirs, bind, try_except_FileNotFoundError, modify,
    print, lift.
  destruct (path_exists (disk s) figures_dir); simpl;
    destruct (source s); reflexivity.
Qed.



(** ** What the cells after the load leave alone *)

Lemma steady_refl (s : state) : steady s s.
Proof. now unfold steady. Qed.

Lemma steady_trans (s1 s2 s3 : state) :
  steady s1 s2 -> steady s2 s3 -> steady s1 s3.
Proof. unfold steady. intuition congruence. Qed.

Lemma analysis_steady : respects steady analysis.
Proof.
  apply respects_analysis; try (intros; unfold steady; simpl; tauto).
  apply steady_trans.
Qed.

Lemma run_all_unfold (s : state) :
  run_all s =
  match cell1 s with
  | Ok _ s' => analysis s'
  | Raise e s' => Raise e s'
  end.
Proof. reflexivity. Qed.

Lemma mem_In (p : string) (l : list string) : mem p l = true <-> In p l.
Proof.
  unfold mem. rewrite existsb_exists. split.
  - intros [q [Hq He]]. apply String.eqb_eq in He. now subst.
  - intros H. exists p. split; [exact H | apply String.eqb_refl].
Qed.

Lemma mem_not_In (p : string) (l : list string) : ~ In p l -> mem p l = false.
Proof.
  intros H. destruct (mem p l) eqn:E; [|reflexivity].
  now apply mem_In in E.
Qed.

Lemma mem_app_same (p : string) (l : list string) : mem p (l ++ [p]) = true.
Proof.
  unfold mem. rewrite existsb_app. simpl. rewrite String.eqb_refl.
  now rewrite orb_true_r.
Qed.

Lemma mem_app_other (p q : string) (l : list string) :
  String.eqb p q = false -> mem p (l ++ [q]) = mem p l.
Proof.
  intros H. unfold mem. rewrite existsb_app. simpl. rewrite H.
  now rewrite !orb_false_r.
Qed.

(** On a disk clear of files at the two directory paths the first
    statement of the load cell raises nothing, and leaves the disk that
    [makedirs] gives. *)
Lemma create_figures_dir_clear (s : state) :
  clear_of_files (disk s) ->
  create_figures_dir (disk s) = inr (disk (after_makedirs s)).
Proof.
  intros [Hr Hf]. apply mem_not_In in Hr, Hf.
  unfold create_figures_dir, after_makedirs, os_path_exists, path_exists.
  rewrite Hf, orb_false_r.
  destruct (mem figures_dir (dirs (disk s))) eqn:Ed; [reflexivity|].
  cbn [negb disk set_disk]. unfold os_makedirs, makedirs.
  change (ancestors_from "" figures_dir) with ["reports"].
  cbn [rev app makedirs_chain fold_left]. unfold os_path_exists.
  rewrite Hr, orb_false_r. unfold add at 2.
  destruct (mem "reports" (dirs (disk s))) eqn:Er.
  - unfold mkdir, os_path_exists, add. rewrite Ed, Hf.
    cbn [orb]. change (dirname figures_dir) with (Some "reports").
    cbv beta iota. now rewrite Er.
  - unfold mkdir at 1. unfold os_path_exists. rewrite Er, Hr. cbn [orb].
    change (dirname "reports") with (@None string). cbv beta iota zeta.
    unfold mkdir, os_path_exists, add. cbn [dirs files].
    rewrite (mem_app_other figures_dir "reports") by reflexivity.
    rewrite Ed, Hf. cbn [orb].
    change (dirname figures_dir) with (Some "reports"). cbv beta iota zeta.
    now rewrite mem_app_same.
Qed.

(** C9, as amended.  On a disk where no regular file stands at
    ["reports"] or ["reports/figures"], the first statement of the load
    cell raises nothing, and the figures directory is there when the load
    cell ends, whether the read succeeded, hit a missing file or raised;
    it is still there at the end of the run of the whole notebook; and a
    run on a missing dataset file ends with the directory in place
    although it wrote no file. *)
Theorem figures_dir_created_before_load (s : state) :
  clear_of_files (disk s) ->
  create_figures_dir (disk s) = inr (disk (after_makedirs s)) /\
  In figures_dir (dirs (disk (final (cell1 s)))) /\
  In figures_dir (dirs (disk (final (run_all s)))) /\
  (source s = Missing -> files (disk (final (run_all s))) = files (disk s)).
Proof.
  intros Hclear. split; [now apply create_figures_dir_clear|].
  assert (H1 : In figures_dir (dirs (disk (final (cell1 s))))).
  { apply contains_In. rewrite cell1_unfold.
    destruct (source s); simpl; apply after_makedirs_exists. }
  split; [exact H1|]. split.
  - rewrite run_all_unfold.
    destruct (cell1 s) as [[] s' | e s']; simpl in H1.
    + destruct (analysis_steady s') as [Hd _]. now rewrite Hd.
    + exact H1.
  - intros Hsrc. rewrite run_all_unfold, cell1_unfold, Hsrc. simpl.
    unfold after_makedirs. simpl.
    destruct (path_exists (disk s) figures_dir); reflexivity.
Qed.

Lemma figures_dir_created_before_load_witness :
  clear_of_files (disk (fresh blank (Malformed ParserError))) /\
  create_figures_dir (disk (fresh blank (Malformed ParserError)))
  = inr (disk (after_makedirs (fresh blank (Malformed ParserError)))) /\
  In figures_dir (dirs (disk (final (cell1 (fresh blank (Malformed ParserError)))))) /\
  In figures_dir (dirs (disk (final (run_all (fresh blank (Malformed ParserError)))))) /\
  (source (fresh blank (Malformed ParserError)) = Missing ->
   files (disk (final (run_all (fresh blank (Malformed ParserError)))))
   = files (disk (fresh blank (Malformed ParserError)))).
Proof.
  assert (H : clear_of_files (disk (fresh blank (Malformed ParserError)))).
  { split; intros []. }
  split; [exact H|].
  apply (figures_dir_created_before_load (fresh blank (Malformed ParserError))).
  exact H.
Defined.

(** C9, as stated, fails on a disk where a regular file stands at
    ["reports"]: nothing stands at ["reports/figures"], so the load cell
    calls [os.makedirs], which raises NotADirectoryError; the directory
    is not created, and the dataset is not read. *)
Lemma file_at_reports_blocks_figures_dir :
  let fs := {| dirs := []; files := ["reports"] |} in
  ~ clear_of_files fs /\
  os_path_exists fs figures_dir = false /\
  create_figures_dir fs = inl (NotADirectoryError figures_dir).
Proof.
  split; [|split; reflexivity].
  intros [H _]. apply H. now left.
Qed.

(** ** Printing *)

Lemma prints_out (ps : list printed) (s : state) :
  out (prints ps s) = out s ++ ps.
Proof.
  unfold prints. revert s. induction ps as [|p ps IH]; intros s; simpl.
  - now rewrite app_nil_r.
  - rewrite IH. simpl. now rewrite <- app_assoc.
Qed.

Lemma prints_app (ps qs : list printed) (s : state) :
  prints qs (prints ps s) = prints (ps ++ qs) s.
Proof. unfold prints. now rewrite fold_left_app. Qed.

(** ** The skipped stages *)

(** C6. On a table without a column named WQI the correlation cell ends
    normally and only prints its warning: [correlation] and [wqi_corr] are
    not assigned (nothing is computed) and the disk is as before (no
    heatmap file). *)
Theorem correlation_skipped_without_WQI (s : state) (t : DataFrame) :
  df s = Some t ->
  ~ In "WQI" (columns t) ->
  exists s',
    cell5 s = Ok tt s' /\
    out s' = out s ++ [wqi_warning] /\
    disk s' = disk s /\
    correlation s' = correlation s /\
    wqi_corr s' = wqi_corr s.
Proof.
  intros Hdf Hno. apply contains_not_In in Hno.
  exists (add_out wqi_warning s).
  unfold cell5, bind, global. rewrite Hdf, Hno. repeat split.
Qed.

Lemma correlation_skipped_without_WQI_witness :
  df (loaded untargeted) = Some untargeted /\
  ~ In "WQI" (columns untargeted) /\
  exists s',
    cell5 (loaded untargeted) = Ok tt s' /\
    out s' = out (loaded untargeted) ++ [wqi_warning] /\
    disk s' = disk (loaded untargeted) /\
    correlation s' = correlation (loaded untargeted) /\
    wqi_corr s' = wqi_corr (loaded untargeted).
Proof.
  assert (Hno : ~ In "WQI" (columns untargeted)).
  { apply contains_not_In. reflexivity. }
  split; [reflexivity|]. split; [exact Hno|].
  apply (correlation_skipped_without_WQI (loaded untargeted) untargeted);
    [reflexivity | exact Hno].
Defined.

(** C7. On a table without a column named Water Quality Classification
    the target cell ends normally and only prints its warning: no count is
    printed, no figure is displayed, and the disk is as before (no plot
    file). *)
Theorem target_skipped_without_label (s : state) (t : DataFrame) :
  df s = Some t ->
  ~ In target (columns t) ->
  exists s',
    cell6 s = Ok tt s' /\
    out s' = out s ++ [target_warning] /\
    disk s' = disk s.
Proof.
  intros Hdf Hno. apply contains_not_In in Hno.
  exists (add_out target_warning s).
  unfold cell6, bind, global. rewrite Hdf, Hno. repeat split.
Qed.

Lemma target_skipped_without_label_witness :
  df (loaded untargeted) = Some untargeted /\
  ~ In target (columns untargeted) /\
  exists s',
    cell6 (loaded untargeted) = Ok tt s' /\
    out s' = out (loaded untargeted) ++ [target_warning] /\
    disk s' = disk (loaded untargeted).
Proof.
  assert (Hno : ~ In target (columns untargeted)).
  { apply contains_not_In. reflexivity. }
  split; [reflexivity|]. split; [exact Hno|].
  apply (target_skipped_without_label (loaded untargeted) untargeted);
    [reflexivity | exact Hno].
Defined.

(** C10. The guard of the correlation cell looks at the column names only.
    On the table [graded], whose column WQI holds text, the guard passes,
    the matrix is computed without that column, and the lookup of ["WQI"]
    in it raises KeyError: the cell ends with that exception, having
    printed nothing, and so does the whole run, without the warning. *)
Theorem text_WQI_raises_KeyError :
  exists (t : DataFrame) (c : Series),
    getcol t "WQI" = Some c /\
    dtype_of c = object /\
    contains "WQI" (columns t) = true /\
    labels (corr t) = [] /\
    (forall fs,
        cell5 (set_df t (fresh fs (Table t))) =
        Raise (KeyError "WQI")
              (set_correlation (corr t) (set_df t (fresh fs (Table t))))) /\
    (forall fs,
        exists s',
          run_all (fresh fs (Table t)) = Raise (KeyError "WQI") s' /\
          ~ In wqi_warning (out s')).
Proof.
  exists graded, (Object [Some "good"; Some "bad"]).
  split; [reflexivity|]. split; [reflexivity|]. split; [reflexivity|].
  split; [reflexivity|]. split.
  - intros fs. vm_compute. reflexivity.
  - intros fs. rewrite run_all_unfold, cell1_unfold. cbn [source fresh].
    unfold after_makedirs. cbn [disk fresh].
    destruct (path_exists fs figures_dir); eexists;
      (split; [vm_compute; reflexivity|]);
      cbn [out]; unfold wqi_warning; simpl; intuition discriminate.
Qed.

(** ** Feature types *)

Lemma select_dtypes_columns (sel : selector) (t : DataFrame) (n : string) :
  In n (columns (select_dtypes sel t)) <->
  exists c, In (n, c) t /\ selects sel (dtype_of c) = true.
Proof.
  unfold columns, select_dtypes. rewrite in_map_iff. split.
  - intros [[m c] [Hn Hin]]. simpl in Hn. subst m.
    apply filter_In in Hin as [Hin Hsel]. now exists c.
  - intros [c [Hin Hsel]]. exists (n, c). split; [reflexivity|].
    apply filter_In. now split.
Qed.

Lemma cell3_unfold (s : state) (t : DataFrame) :
  df s = Some t ->
  empty t = false ->
  cell3 s =
  Ok tt
     (prints
        [TextNames (nl ++ "🔢 Numerical Columns:") (columns (select_dtypes sel_number t));
         TextNames "🔠 Categorical Columns:" (columns (select_dtypes sel_object t))]
        (set_numerical (columns (select_dtypes sel_number t))
           (set_categorical (columns (select_dtypes sel_object t)) s))).
Proof.
  intros Hdf He. unfold cell3, bind, global. rewrite Hdf, He. reflexivity.
Qed.

Lemma prints_numerical (ps : list printed) (s : state) :
  numerical (prints ps s) = numerical s.
Proof.
  unfold prints. revert s. induction ps as [|p ps IH]; intros s; simpl;
    [reflexivity | now rewrite IH].
Qed.

Lemma prints_categorical (ps : list printed) (s : state) :
  categorical (prints ps s) = categorical s.
Proof.
  unfold prints. revert s. induction ps as [|p ps IH]; intros s; simpl;
    [reflexivity | now rewrite IH].
Qed.

(** C2, as amended.  On a non-empty table the type cell binds [numerical]
    and [categorical] to two lists with no name in common; a name is in one
    of them exactly when its column is not a boolean column; so the two
    lists cover all the columns when the table has no boolean column. *)
Theorem feature_types_disjoint (s : state) (t : DataFrame) :
  df s = Some t ->
  empty t = false ->
  well_formed t = true ->
  exists s' num cat,
    cell3 s = Ok tt s' /\
    numerical s' = Some num /\
    categorical s' = Some cat /\
    (forall n, ~ (In n num /\ In n cat)) /\
    (forall n, In n num \/ In n cat <->
               exists c, In (n, c) t /\ dtype_of c <> bool_) /\
    ((forall n c, In (n, c) t -> dtype_of c <> bool_) ->
     forall n, In n num \/ In n cat <-> In n (columns t)).
Proof.
  intros Hdf He Hwf. pose proof (well_formed_NoDup t Hwf) as Hnd.
  eexists. exists (columns (select_dtypes sel_number t)),
             (columns (select_dtypes sel_object t)).
  split; [exact (cell3_unfold s t Hdf He)|].
  split; [now rewrite prints_numerical|].
  split; [now rewrite prints_categorical|].
  assert (Hcover : forall n,
             In n (columns (select_dtypes sel_number t)) \/
             In n (columns (select_dtypes sel_object t)) <->
             exists c, In (n, c) t /\ dtype_of c <> bool_).
  { intros n. rewrite !select_dtypes_columns. split.
    - intros [[c [Hin Hs]] | [c [Hin Hs]]]; exists c; split; try assumption;
        destruct (dtype_of c); simpl in Hs; congruence.
    - intros [c [Hin Hb]].
      destruct (dtype_of c) eqn:E; try congruence;
        [left | left | right]; exists c; rewrite E; now split. }
  split; [|split].
  - intros n [H1 H2]. apply select_dtypes_columns in H1 as [c1 [Hin1 Hs1]].
    apply select_dtypes_columns in H2 as [c2 [Hin2 Hs2]].
    apply (getcol_NoDup t n c1 Hnd) in Hin1.
    apply (getcol_NoDup t n c2 Hnd) in Hin2.
    assert (c1 = c2) by congruence. subst c2.
    destruct (dtype_of c1); simpl in *; congruence.
  - exact Hcover.
  - intros Hnb n. rewrite Hcover. split.
    + intros [c [Hin _]]. change n with (fst (n, c)). now apply in_map.
    + intros Hin. apply in_map_iff in Hin as [[m c] [Hm Hin]]. simpl in Hm.
      subst m. exists c. split; [assumption | now apply (Hnb n)].
Qed.

Lemma feature_types_disjoint_witness :
  df (loaded readings) = Some readings /\
  empty readings = false /\
  well_formed readings = true /\
  exists s' num cat,
    cell3 (loaded readings) = Ok tt s' /\
    numerical s' = Some num /\
    categorical s' = Some cat /\
    (forall n, ~ (In n num /\ In n cat)) /\
    (forall n, In n num \/ In n cat <->
               exists c, In (n, c) readings /\ dtype_of c <> bool_) /\
    ((forall n c, In (n, c) readings -> dtype_of c <> bool_) ->
     forall n, In n num \/ In n cat <-> In n (columns readings)).
Proof.
  split; [reflexivity|]. split; [reflexivity|]. split; [reflexivity|].
  apply (feature_types_disjoint (loaded readings) readings); reflexivity.
Defined.

(** C2, as stated, fails on the table [flags]: it is not empty, and its
    boolean column is neither in [numerical] nor in [categorical]. *)
Lemma boolean_column_unclassified :
  empty flags = false /\
  well_formed flags = true /\
  exists s',
    cell3 (loaded flags) = Ok tt s' /\
    numerical s' = Some [] /\
    categorical s' = Some [] /\
    In "potable" (columns flags) /\
    ~ (forall n, In n (columns flags) -> In n ([] ++ [])).
Proof.
  split; [reflexivity|]. split; [reflexivity|].
  eexists. split; [vm_compute; reflexivity|].
  split; [reflexivity|]. split; [reflexivity|].
  split; [left; reflexivity|].
  intros H. apply (H "potable"). left; reflexivity.
Qed.

(** ** The identifier check *)

Lemma identifier_loop (t : DataFrame) (l : list string) :
  (forall n, In n l -> In n (columns t)) ->
  forall (found : bool) (s : state),
    for_each_with l found
      (fun found col =>
         c <- column t col ;;
         if is_unique c then
           print (Text (identifier_message col)) ;;
           ret true
         else ret found) s
    = Ok (found || existsb (reports_identifier t) l)
         (prints (map (fun n => Text (identifier_message n))
                      (filter (reports_identifier t) l)) s).
Proof.
  induction l as [|col rest IH]; intros Hl found s.
  - simpl. now rewrite orb_false_r.
  - destruct (getcol_columns t col (Hl col (or_introl eq_refl))) as [c Hc].
    assert (Hrest : forall n, In n rest -> In n (columns t)).
    { intros n Hn. apply Hl. now right. }
    cbn [for_each_with existsb filter]. unfold reports_identifier at 1 3.
    unfold bind at 1. unfold bind at 1. unfold column. rewrite Hc.
    unfold ret at 1. destruct (is_unique c).
    + unfold bind at 1. unfold print, modify, ret at 1.
      rewrite (IH Hrest). cbn [map]. rewrite orb_true_r. reflexivity.
    + unfold ret at 1. rewrite (IH Hrest). reflexivity.
Qed.

Lemma existsb_filter_nil {X : Type} (P : X -> bool) (l : list X) :
  existsb P l = false <-> filter P l = [].
Proof.
  induction l as [|x rest IH]; simpl; [tauto|].
  destruct (P x); simpl; [split; discriminate | exact IH].
Qed.

Lemma cell4_unfold (s : state) (t : DataFrame) :
  df s = Some t ->
  empty t = false ->
  cell4 s =
  Ok tt
     (prints
        ([Text (nl ++ "🆔 Checking for Identifier Columns...")] ++
         map (fun n => Text (identifier_message n)) (reported t) ++
         match reported t with
         | [] => [Text "No identifier columns found."]
         | _ :: _ => []
         end) s).
Proof.
  intros Hdf He. unfold cell4. unfold bind at 1. unfold global.
  rewrite Hdf, He. cbn [negb]. unfold bind at 1. unfold print at 1, modify.
  unfold bind at 1. rewrite identifier_loop by (intros n Hn; exact Hn).
  cbn [orb]. fold (reported t). rewrite <- !prints_app.
  destruct (existsb (reports_identifier t) (columns t)) eqn:E.
  - destruct (reported t) eqn:Er.
    + apply existsb_filter_nil in Er. unfold reported in Er. congruence.
    + reflexivity.
  - apply existsb_filter_nil in E. unfold reported. rewrite E. reflexivity.
Qed.

(** C3. On a non-empty table the identifier cell ends normally, and the
    lines it prints name exactly the columns whose number of distinct
    values (a missing value counting as one value) is the number of rows
    of the table. *)
Theorem identifier_check_flags_unique_columns
        (s : state) (t : DataFrame) (col : string) (c : Series) :
  df s = Some t ->
  empty t = false ->
  well_formed t = true ->
  In (col, c) t ->
  exists s' flagged,
    cell4 s = Ok tt s' /\
    out s' = out s ++
      [Text (nl ++ "🆔 Checking for Identifier Columns...")] ++
      map (fun n => Text (identifier_message n)) flagged ++
      match flagged with
      | [] => [Text "No identifier columns found."]
      | _ :: _ => []
      end /\
    (In col flagged <-> nunique c = nrows t).
Proof.
  intros Hdf He Hwf Hin. eexists. exists (reported t).
  split; [exact (cell4_unfold s t Hdf He)|].
  split; [apply prints_out|].
  unfold reported. rewrite filter_In. unfold reports_identifier.
  rewrite (getcol_NoDup t col c (well_formed_NoDup t Hwf) Hin).
  rewrite is_unique_nunique, (well_formed_len t col c Hwf Hin).
  split; [intros [_ H]; exact H | intros H; split; [|exact H]].
  change col with (fst (col, c)). now apply in_map.
Qed.

Lemma identifier_check_flags_unique_columns_witness :
  df (loaded readings) = Some readings /\
  empty readings = false /\
  well_formed readings = true /\
  In ("WQI", Int64 [1; 2; 3]%Z) readings /\
  exists s' flagged,
    cell4 (loaded readings) = Ok tt s' /\
    out s' = out (loaded readings) ++
      [Text (nl ++ "🆔 Checking for Identifier Columns...")] ++
      map (fun n => Text (identifier_message n)) flagged ++
      match flagged with
      | [] => [Text "No identifier columns found."]
      | _ :: _ => []
      end /\
    (In "WQI" flagged <-> nunique (Int64 [1; 2; 3]%Z) = nrows readings).
Proof.
  assert (Hin : In ("WQI", Int64 [1; 2; 3]%Z) readings).
  { right; left; reflexivity. }
  split; [reflexivity|]. split; [reflexivity|]. split; [reflexivity|].
  split; [exact Hin|].
  apply (identifier_check_flags_unique_columns
           (loaded readings) readings "WQI" (Int64 [1; 2; 3]%Z));
    [reflexivity | reflexivity | reflexivity | exact Hin].
Defined.

(** ** Pearson's coefficient *)




Lemma nth_map_rows {X Y : Type} (f : X -> list Y) (l : list X) (i : nat) :
  nth i (map f l) [] =
  match nth_error l i with
  | Some x => f x
  | None => []
  end.
Proof.
  revert i. induction l as [|x l IH]; intros [|i]; simpl; try reflexivity.
  apply IH.
Qed.

Lemma nth_map_cells {X Y : Type} (f : X -> option Y) (l : list X) (j : nat) :
  nth j (map f l) None =
  match nth_error l j with
  | Some x => f x
  | None => None
  end.
Proof.
  revert j. induction l as [|x l IH]; intros [|j]; simpl; try reflexivity.
  apply IH.
Qed.

Lemma entry_corr (t : DataFrame) (i j : nat) :
  entry (corr t) i j =
  match nth_error (get_numeric_data t) i, nth_error (get_numeric_data t) j with
  | Some cx, Some cy => pearson (snd cx) (snd cy)
  | _, _ => None
  end.
Proof.
  unfold entry, corr. cbn [rows]. rewrite nth_map_rows.
  destruct (nth_error (get_numeric_data t) i) as [cx|].
  - rewrite nth_map_cells. now destruct (nth_error (get_numeric_data t) j).
  - now destruct j.
Qed.



Lemma squares_nonneg (m : R) (l : list R) :
  (0 <= sum (map (fun x => (x - m) * (x - m)) l))%R.
Proof.
  induction l as [|x l IH]; simpl; [lra|].
  pose proof (Rle_0_sqr (x - m)) as H. unfold Rsqr in H. lra.
Qed.

Lemma ssqdm_nonneg (l : list R) : (0 <= ssqdm l)%R.
Proof. apply squares_nonneg. Qed.

Lemma complete_pairs_self (xs : list (option R)) :
  complete_pairs xs xs = map (fun x => (x, x)) (present xs).
Proof.
  induction xs as [|[x|] xs IH]; simpl; [reflexivity | now rewrite IH | exact IH].
Qed.

Lemma pearson_self (xs : list (option R)) (v : R) :
  var xs = Some v -> v <> 0%R -> pearson xs xs = Some 1%R.
Proof.
  unfold var, pearson. rewrite complete_pairs_self.
  remember (present xs) as l eqn:El. clear El. intros Hv Hne.
  destruct (length l <=? 1)%nat eqn:Hlen; [discriminate|]. injection Hv as Hv.
  rewrite !map_map. cbn [fst snd]. rewrite map_id.
  change (sum (map (fun y : R => ((y - mean l) * (y - mean l))%R) l))
    with (ssqdm l).
  pose proof (ssqdm_nonneg l) as Hpos.
  rewrite (sqrt_square _ Hpos).
  assert (Hs : ssqdm l <> 0%R).
  { intros H0. apply Hne. rewrite <- Hv, H0. unfold Rdiv. apply Rmult_0_l. }
  destruct (Req_dec_T (ssqdm l) 0%R) as [H0 | _]; [contradiction|].
  destruct l as [|x l']; [discriminate|]. cbn [map].
  f_equal. now field.
Qed.

Lemma numeric_position (t : DataFrame) (col : string) (c : Series)
      (xs : list (option R)) :
  NoDup (columns t) ->
  In (col, c) t ->
  to_numeric c = Some xs ->
  exists i,
    index_of col (map fst (get_numeric_data t)) = Some i /\
    nth_error (get_numeric_data t) i = Some (col, xs).
Proof.
  induction t as [|[m s] rest IH]; simpl; intros Hnd Hin Hnum; [contradiction|].
  inversion Hnd as [|? ? Hm Hrest]; subst.
  destruct Hin as [[= -> ->] | Hin].
  - rewrite Hnum. exists 0. simpl. now rewrite String.eqb_refl.
  - destruct (IH Hrest Hin Hnum) as [i [Hi Hn]].
    destruct (to_numeric s) as [ys|]; [|now exists i].
    exists (S i). simpl. destruct (String.eqb col m) eqn:E.
    + apply String.eqb_eq in E. subst m. exfalso. apply Hm.
      change col with (fst (col, c)). now apply in_map.
    + rewrite Hi. now split.
Qed.

Lemma corr_diagonal (t : DataFrame) (col : string) (c : Series) (v : R) :
  well_formed t = true ->
  In (col, c) t ->
  variance c = Some v ->
  v <> 0%R ->
  loc (corr t) col col = Some (Some 1%R).
Proof.
  intros Hwf Hin Hv Hne. unfold variance in Hv.
  destruct (to_numeric c) as [xs|] eqn:Hnum; [|discriminate].
  destruct (numeric_position t col c xs (well_formed_NoDup t Hwf) Hin Hnum)
    as [i [Hi Hn]].
  unfold loc. cbn [labels corr]. rewrite Hi, entry_corr, Hn. cbn [snd].
  now rewrite (pearson_self xs v Hv Hne).
Qed.

(** ** Looking up and sorting the WQI column *)











(** ** The correlation cell *)

Lemma cell5_unfold (s : state) (t : DataFrame) :
  df s = Some t ->
  contains "WQI" (columns t) = true ->
  cell5 s =
  match getitem (corr t) "WQI" with
  | inl e => Raise e (set_correlation (corr t) s)
  | inr c =>
      let s2 :=
        add_out (CorrSeries (sort_values_desc c))
          (add_out (Text (nl ++ "🔗 Correlation with WQI:"))
             (set_wqi_corr (sort_values_desc c)
                (set_correlation (corr t) s))) in
      if writable (disk s) heatmap_path
      then Ok tt
             (add_out (Display (Heatmap heatmap_title (corr t)))
                (add_out (Text (nl ++ "✅ Correlation heatmap saved to 'reports/figures/correlation_heatmap.png'"))
                   (set_disk (write_file heatmap_path (disk s)) s2)))
      else Raise (FileNotFoundError heatmap_path) s2
  end.
Proof.
  intros Hdf Hc. unfold cell5. unfold bind at 1. unfold global at 1.
  rewrite Hdf, Hc. unfold bind at 1. unfold modify at 1.
  unfold bind at 1. unfold global at 1. cbn [correlation set_correlation].
  unfold bind at 1. unfold lift.
  destruct (getitem (corr t) "WQI") as [e | c]; [reflexivity|].
  unfold ret at 1. unfold bind, modify, print, global, savefig, show, print, modify.
  cbn [wqi_corr set_wqi_corr add_out disk set_correlation].
  destruct (writable (disk s) heatmap_path); reflexivity.
Qed.

(** *** The float64 matrix *)











(** On the readings the float64 diagonal is 1.0, as in exact arithmetic. *)
Example readings_float64_diagonal :
  entry64 (corr readings) 0 0 = 1%float /\
  entry64 (corr readings) 1 1 = 1%float.
Proof.
  unfold entry64. cbn [rows64 corr]. split; vm_compute; reflexivity.
Qed.

(** The WQI column of [readings] has variance 1, so the matrix has 1 at
    its place on the diagonal. *)
Example readings_WQI_diagonal :
  variance (Int64 [1; 2; 3]%Z) = Some 1%R /\
  loc (corr readings) "WQI" "WQI" = Some (Some 1%R).
Proof.
  assert (Hv : variance (Int64 [1; 2; 3]%Z) = Some 1%R).
  { unfold variance, var, ssqdm, mean, sum. simpl. f_equal. field. }
  split; [exact Hv|].
  apply (corr_diagonal readings "WQI" (Int64 [1; 2; 3]%Z) 1%R);
    [reflexivity | right; left; reflexivity | exact Hv | lra].
Qed.



(** ** Saving figures *)

Lemma writable_heatmap_path (fs : filesystem) :
  path_exists fs figures_dir = true -> writable fs heatmap_path = true.
Proof. intros He. exact He. Qed.

Lemma writable_target_path (fs : filesystem) :
  path_exists fs figures_dir = true -> writable fs target_path = true.
Proof. intros He. exact He. Qed.

(** ** Cells that run to their end *)

Lemma same_numerical_refl (s : state) : same_numerical s s.
Proof. reflexivity. Qed.

Lemma same_numerical_trans (s1 s2 s3 : state) :
  same_numerical s1 s2 -> same_numerical s2 s3 -> same_numerical s1 s3.
Proof. unfold same_numerical. congruence. Qed.

Lemma ended_steady {A : Type} (m : M A) (s s' : state) (a : A) :
  respects steady m -> m s = Ok a s' -> steady s s'.
Proof. intros Hr Hm. specialize (Hr s). now rewrite Hm in Hr. Qed.

Lemma ended_same_numerical {A : Type} (m : M A) (s s' : state) (a : A) :
  respects same_numerical m -> m s = Ok a s' -> numerical s' = numerical s.
Proof. intros Hr Hm. specialize (Hr s). now rewrite Hm in Hr. Qed.

Lemma cell2_ends (s : state) (t : DataFrame) :
  df s = Some t -> exists s', cell2 s = Ok tt s'.
Proof.
  intros Hdf. unfold cell2. unfold bind at 1. unfold global. rewrite Hdf.
  destruct (empty t); eexists; reflexivity.
Qed.

Lemma cell3_ends (s : state) (t : DataFrame) :
  df s = Some t ->
  exists s',
    cell3 s = Ok tt s' /\
    (empty t = false ->
     numerical s' = Some (columns (select_dtypes sel_number t))).
Proof.
  intros Hdf. destruct (empty t) eqn:He.
  - exists s. split; [|discriminate].
    unfold cell3. unfold bind at 1. unfold global. now rewrite Hdf, He.
  - eexists. split; [exact (cell3_unfold s t Hdf He)|].
    intros _. now rewrite prints_numerical.
Qed.

Lemma cell4_ends (s : state) (t : DataFrame) :
  df s = Some t -> exists s', cell4 s = Ok tt s'.
Proof.
  intros Hdf. destruct (empty t) eqn:He.
  - exists s. unfold cell4. unfold bind at 1. unfold global.
    now rewrite Hdf, He.
  - eexists. exact (cell4_unfold s t Hdf He).
Qed.

Lemma cell6_ends (s : state) (t : DataFrame) :
  df s = Some t ->
  path_exists (disk s) figures_dir = true ->
  exists s', cell6 s = Ok tt s'.
Proof.
  intros Hdf He. unfold cell6. unfold bind at 1. unfold global. rewrite Hdf.
  destruct (contains target (columns t)) eqn:Hc; [|eexists; reflexivity].
  apply contains_In in Hc. destruct (getcol_columns t target Hc) as [c Hg].
  unfold column. rewrite Hg. unfold bind at 1. unfold ret at 1. cbv zeta.
  unfold bind at 1. unfold savefig.
  rewrite (writable_target_path (disk s) He).
  eexists; reflexivity.
Qed.

(** ** Runs of the whole notebook *)

Ltac frame_steady := try (intros; unfold steady; simpl; tauto); apply steady_trans.
Ltac frame_numerical := try (intros; reflexivity); apply same_numerical_trans.

Lemma steady_keeps (s s' : state) (t : DataFrame) :
  steady s s' ->
  df s = Some t ->
  path_exists (disk s) figures_dir = true ->
  df s' = Some t /\ path_exists (disk s') figures_dir = true.
Proof.
  intros [Hd [Hf _]] Hdf He. split; [congruence|].
  unfold path_exists in *. now rewrite Hd.
Qed.


(** The identifier check and the type cell on the table [labelled]: only
    ["ID"] is reported; the numerical columns are A, B and WQI, the
    categorical column is ID. *)
Example labelled_identifier_and_types :
  reported labelled = ["ID"] /\
  columns (select_dtypes sel_number labelled) = ["A"; "B"; "WQI"] /\
  columns (select_dtypes sel_object labelled) = ["ID"].
Proof. repeat split. Qed.

(* ================================================================== *)
(** * Further properties of the cells *)
(* ================================================================== *)

(** ** The load cell *)





Lemma In_add (p q : string) (l : list string) :
  In p (add q l) <-> In p l \/ p = q.
Proof.
  unfold add. destruct (mem q l) eqn:E.
  - apply mem_In in E. split; [now left | intros [H | ->]; assumption].
  - rewrite in_app_iff. simpl. intuition congruence.
Qed.

Lemma cell1_files (s : state) :
  files (disk (final (cell1 s))) = files (disk s).
Proof.
  rewrite cell1_unfold. unfold after_makedirs.
  destruct (source s), (path_exists (disk s) figures_dir); reflexivity.
Qed.

(** X3. The load cell writes no file and removes no directory; the only
    directories it can add are ["reports"] and ["reports/figures"]; and
    when the figures directory is there already it leaves the disk as it
    is. *)
Theorem load_cell_disk_frame (s : state) :
  files (disk (final (cell1 s))) = files (disk s) /\
  (forall p, In p (dirs (disk s)) -> In p (dirs (disk (final (cell1 s))))) /\
  (forall p, In p (dirs (disk (final (cell1 s)))) ->
             In p (dirs (disk s)) \/ p = "reports" \/ p = figures_dir) /\
  (path_exists (disk s) figures_dir = true -> disk (final (cell1 s)) = disk s).
Proof.
  assert (Hd : disk (final (cell1 s)) = disk (after_makedirs s)).
  { rewrite cell1_unfold. destruct (source s); reflexivity. }
  rewrite Hd. unfold after_makedirs.
  destruct (path_exists (disk s) figures_dir) eqn:E.
  - repeat split; auto.
  - cbn [disk set_disk makedirs files dirs]. split; [reflexivity|].
    change (ancestors_from "" figures_dir ++ [figures_dir])
      with ["reports"; figures_dir].
    cbn [fold_left]. split; [|split; [|discriminate]].
    + intros p Hp. apply In_add. left. apply In_add. now left.
    + intros p Hp. apply In_add in Hp as [Hp | ->]; [|now right; right].
      apply In_add in Hp as [Hp | ->]; [now left | now right; left].
Qed.

(** ** Cells on an empty table *)

(** X4. On an empty table (no column, or columns without a row) the
    overview, type, identifier and distribution cells do nothing at all:
    each ends normally and leaves the kernel exactly as it was, without
    any output. *)
Theorem empty_table_cells_do_nothing (s : state) (t : DataFrame) :
  df s = Some t ->
  empty t = true ->
  cell2 s = Ok tt s /\
  cell3 s = Ok tt s /\
  cell4 s = Ok tt s /\
  cell7 s = Ok tt s.
Proof.
  intros Hdf He. split; [|split; [|split]].
  - unfold cell2. unfold bind at 1. unfold global. now rewrite Hdf, He.
  - unfold cell3. unfold bind at 1. unfold global at 1. now rewrite Hdf, He.
  - unfold cell4. unfold bind at 1. unfold global. now rewrite Hdf, He.
  - unfold cell7. unfold bind at 1. unfold global at 1. now rewrite Hdf, He.
Qed.

Lemma empty_table_cells_do_nothing_witness :
  df (loaded header_only) = Some header_only /\
  empty header_only = true /\
  cell2 (loaded header_only) = Ok tt (loaded header_only) /\
  cell3 (loaded header_only) = Ok tt (loaded header_only) /\
  cell4 (loaded header_only) = Ok tt (loaded header_only) /\
  cell7 (loaded header_only) = Ok tt (loaded header_only).
Proof.
  split; [reflexivity|]. split; [reflexivity|].
  apply (empty_table_cells_do_nothing (loaded header_only) header_only);
    reflexivity.
Defined.

(** ** What the cells after the load never do *)

Lemma cell1_source (s : state) : source (final (cell1 s)) = source s.
Proof.
  rewrite cell1_unfold. unfold after_makedirs.
  destruct (source s) eqn:E; destruct (path_exists (disk s) figures_dir);
    exact E.
Qed.

(** X5. The table is loaded once: no cell after the load cell assigns
    [df], adds or removes a directory, or touches the dataset file,
    whether the cell ends normally or with an exception.  So at the end
    of every run [df] and the directories are what the load cell left. *)
Theorem table_loaded_once (s : state) :
  steady s (final (cell2 s)) /\
  steady s (final (cell3 s)) /\
  steady s (final (cell4 s)) /\
  steady s (final (cell5 s)) /\
  steady s (final (cell6 s)) /\
  steady s (final (cell7 s)) /\
  df (final (run_all s)) = df (final (cell1 s)) /\
  dirs (disk (final (run_all s))) = dirs (disk (final (cell1 s))) /\
  source (final (run_all s)) = source s.
Proof.
  split; [apply respects_cell2; frame_steady|].
  split; [apply respects_cell3; frame_steady|].
  split; [apply respects_cell4; frame_steady|].
  split; [apply respects_cell5; frame_steady|].
  split; [apply respects_cell6; frame_steady|].
  split; [apply respects_cell7; frame_steady|].
  pose proof (cell1_source s) as Hs. rewrite run_all_unfold.
  destruct (cell1 s) as [[] s1 | e s1]; cbn [final] in *.
  - destruct (analysis_steady s1) as [Hd [Hf Hsrc]].
    repeat split; congruence.
  - repeat split; assumption.
Qed.

(** ** The files a run writes *)

Lemma adds_figures_only_refl (s : state) : adds_figures_only s s.
Proof. split; auto. Qed.

Lemma adds_figures_only_trans (s1 s2 s3 : state) :
  adds_figures_only s1 s2 -> adds_figures_only s2 s3 -> adds_figures_only s1 s3.
Proof.
  intros [H1 H2] [H3 H4]. split; [auto|].
  intros p Hp. destruct (H4 p Hp) as [H | H]; [auto | now right].
Qed.

Lemma savefig_adds_figure (p : string) :
  figure_output p -> respects adds_figures_only (savefig p).
Proof.
  intros Hp s. unfold savefig.
  destruct (writable (disk s) p); [destruct (fits p)|]; cbn [final].
  - split; intros q Hq; cbn [disk set_disk write_file files] in *.
    + apply In_add. now left.
    + apply In_add in Hq as [Hq | ->]; [now left | now right].
  - apply adds_figures_only_refl.
  - apply adds_figures_only_refl.
Qed.

Lemma same_disk_adds_figures_only (s s' : state) :
  disk s' = disk s -> adds_figures_only s s'.
Proof. intros H. unfold adds_figures_only. rewrite H. split; auto. Qed.

Lemma same_disk_adds_figures_only_files (s s' : state) :
  files (disk s') = files (disk s) -> adds_figures_only s s'.
Proof. intros H. unfold adds_figures_only. rewrite H. split; auto. Qed.

Lemma print_adds_figures_only (p : printed) :
  respects adds_figures_only (print p).
Proof. intros s. now apply same_disk_adds_figures_only. Qed.

Ltac frame_figures :=
  try (intros; apply adds_figures_only_refl); try apply adds_figures_only_trans.
Ltac frame_disk :=
  try (intros; now apply same_disk_adds_figures_only);
  try apply adds_figures_only_trans.

Lemma bind_adds_figures_only {A B : Type} (m : M A) (k : A -> M B) :
  respects adds_figures_only m ->
  (forall a, respects adds_figures_only (k a)) ->
  respects adds_figures_only (bind m k).
Proof.
  apply respects_bind. apply adds_figures_only_trans.
Qed.

Lemma cell5_adds_figures_only : respects adds_figures_only cell5.
Proof.
  unfold cell5.
  apply bind_adds_figures_only; [apply respects_global; frame_figures | intros t].
  apply respects_if; [|apply print_adds_figures_only].
  apply bind_adds_figures_only; [intros s; now apply same_disk_adds_figures_only | intros _].
  apply bind_adds_figures_only; [apply respects_global; frame_figures | intros m].
  apply bind_adds_figures_only; [apply respects_lift; frame_figures | intros c].
  apply bind_adds_figures_only; [intros s; now apply same_disk_adds_figures_only | intros _].
  apply bind_adds_figures_only; [apply print_adds_figures_only | intros _].
  apply bind_adds_figures_only; [apply respects_global; frame_figures | intros w].
  apply bind_adds_figures_only; [apply print_adds_figures_only | intros _].
  apply bind_adds_figures_only;
    [apply savefig_adds_figure; now left | intros _].
  apply bind_adds_figures_only; [apply print_adds_figures_only | intros _].
  apply print_adds_figures_only.
Qed.

Lemma cell6_adds_figures_only : respects adds_figures_only cell6.
Proof.
  unfold cell6.
  apply bind_adds_figures_only; [apply respects_global; frame_figures | intros t].
  apply respects_if; [|apply print_adds_figures_only].
  apply bind_adds_figures_only; [apply respects_column; frame_figures | intros c].
  cbv zeta.
  apply bind_adds_figures_only;
    [apply savefig_adds_figure; now right; left | intros _].
  apply bind_adds_figures_only; [apply print_adds_figures_only | intros _].
  apply bind_adds_figures_only; [apply print_adds_figures_only | intros _].
  apply bind_adds_figures_only; [apply print_adds_figures_only | intros _].
  apply bind_adds_figures_only; [apply respects_column; frame_figures | intros c'].
  apply print_adds_figures_only.
Qed.

Lemma cell7_adds_figures_only : respects adds_figures_only cell7.
Proof.
  unfold cell7.
  apply bind_adds_figures_only; [apply respects_global; frame_figures | intros t].
  apply respects_if; [|apply respects_ret; frame_figures].
  apply bind_adds_figures_only; [apply print_adds_figures_only | intros _].
  apply bind_adds_figures_only; [apply respects_global; frame_figures | intros num].
  apply bind_adds_figures_only; [|intros _; apply print_adds_figures_only].
  apply respects_for_each; frame_figures. intros col.
  apply bind_adds_figures_only; [apply respects_column; frame_figures | intros c].
  apply bind_adds_figures_only; [apply respects_draw; frame_figures | intros _].
  apply bind_adds_figures_only; [apply respects_column; frame_figures | intros c'].
  apply bind_adds_figures_only; [apply respects_draw; frame_figures | intros _].
  apply bind_adds_figures_only; [|intros _; apply print_adds_figures_only].
  apply bind_adds_figures_only; [apply respects_draw; frame_figures | intros _].
  apply savefig_adds_figure; right; right; now exists col.
Qed.

Lemma analysis_adds_figures_only : respects adds_figures_only analysis.
Proof.
  unfold analysis.
  apply bind_adds_figures_only; [apply respects_cell2; frame_disk | intros _].
  apply bind_adds_figures_only; [apply respects_cell3; frame_disk | intros _].
  apply bind_adds_figures_only; [apply respects_cell4; frame_disk | intros _].
  apply bind_adds_figures_only; [apply cell5_adds_figures_only | intros _].
  apply bind_adds_figures_only; [apply cell6_adds_figures_only | intros _].
  apply cell7_adds_figures_only.
Qed.

(** X6. However a run ends, the files on the disk are the files that were
    there before and, besides those, figures only: the correlation
    heatmap, the target plot and distribution plots.  All of them lie
    under ["reports/figures/"]; no other path is ever written and no file
    is removed. *)
Theorem run_writes_figures_only (s : state) :
  adds_figures_only s (final (run_all s)) /\
  (forall p, figure_output p -> String.prefix "reports/figures/" p = true).
Proof.
  split.
  - rewrite run_all_unfold.
    pose proof (cell1_files s) as Hf.
    destruct (cell1 s) as [[] s1 | e s1]; cbn [final] in *.
    + destruct (analysis_adds_figures_only s1) as [H1 H2].
      rewrite Hf in H1, H2. now split.
    + now apply same_disk_adds_figures_only_files.
  - intros p [-> | [-> | [col ->]]]; reflexivity.
Qed.

(** ** The names of the figure files *)

Lemma string_length_append (a b : string) :
  String.length (a ++ b)%string = String.length a + String.length b.
Proof. induction a as [|c a IH]; simpl; [reflexivity | now rewrite IH]. Qed.

Lemma append_cancel_r (a b suffix : string) :
  (a ++ suffix)%string = (b ++ suffix)%string -> a = b.
Proof.
  revert b. induction a as [|c a IH]; intros [|d b] H.
  - reflexivity.
  - apply (f_equal String.length) in H. simpl in H.
    rewrite string_length_append in H. lia.
  - apply (f_equal String.length) in H. simpl in H.
    rewrite string_length_append in H. lia.
  - simpl in H. injection H as -> H. f_equal. now apply IH.
Qed.

Lemma figure_path_injective (a b : string) :
  figure_path a = figure_path b -> a = b.
Proof.
  unfold figure_path. intros H. cbn [append] in H.
  repeat (injection H as H). now apply append_cancel_r in H.
Qed.

(** X9. The file of a distribution plot determines its column: two
    different column names never share a file, so the plots of a list of
    distinct names are distinct files; and no distribution plot
    overwrites the correlation heatmap or the target plot, whatever the
    column is called. *)
Theorem figure_files_never_clash :
  (forall a b, figure_path a = figure_path b -> a = b) /\
  (forall l, NoDup l -> NoDup (map figure_path l)) /\
  (forall col, figure_path col <> heatmap_path /\ figure_path col <> target_path) /\
  heatmap_path <> target_path.
Proof.
  split; [exact figure_path_injective|]. split; [|split].
  - intros l Hl. induction Hl as [|x l Hx Hl IH]; simpl; constructor.
    + intros Hin. apply in_map_iff in Hin as [y [Hy Hin]].
      apply figure_path_injective in Hy. now subst.
    + exact IH.
  - intros col. unfold figure_path, heatmap_path, target_path.
    split; intros H; cbn [append] in H; discriminate.
  - discriminate.
Qed.

(** ** The target cell and the class balance *)














(** Two classes that tie: Good was seen before Poor and stays before it. *)
Example tied_classes_keep_first_appearance :
  value_counts (Object [Some "Good"; Some "Poor"; Some "Excellent"; Some "Excellent"])
  = [(VStr "Excellent", 2); (VStr "Good", 1); (VStr "Poor", 1)].
Proof. reflexivity. Qed.

(** ** The correlation cell *)

Lemma labels_corr (t : DataFrame) : labels (corr t) = non_text_columns t.
Proof.
  cbn [labels corr]. unfold non_text_columns, columns.
  induction t as [|[n c] rest IH]; [reflexivity|].
  destruct c; simpl; now rewrite ?IH.
Qed.



Lemma index_of_In (k : string) (l : list string) :
  In k l <-> exists j, index_of k l = Some j.
Proof.
  induction l as [|n l IH]; simpl.
  - split; [contradiction | intros [j Hj]; discriminate].
  - destruct (String.eqb k n) eqn:E.
    + apply String.eqb_eq in E. subst n. split; [now exists 0 | now left].
    + rewrite IH. split.
      * intros [-> | [j Hj]]; [now rewrite String.eqb_refl in E|].
        exists (S j). now rewrite Hj.
      * intros [j Hj]. right.
        destruct (index_of k l) as [i|]; [now exists i | discriminate].
Qed.



(** ** The identifier check on a table with one row *)

Lemma getcol_Some_In (t : DataFrame) (n : string) (c : Series) :
  getcol t n = Some c -> In (n, c) t.
Proof.
  induction t as [|[m x] rest IH]; simpl; [discriminate|].
  destruct (String.eqb n m) eqn:E.
  - apply String.eqb_eq in E. intros [= <-]. left. now subst.
  - intros H. right. now apply IH.
Qed.

Lemma filter_all {X : Type} (f : X -> bool) (l : list X) :
  (forall x, In x l -> f x = true) -> filter f l = l.
Proof.
  induction l as [|x l IH]; intros H; simpl; [reflexivity|].
  rewrite (H x (or_introl eq_refl)). f_equal. apply IH.
  intros y Hy. apply H. now right.
Qed.

Lemma single_value_is_unique (c : Series) : len c = 1 -> is_unique c = true.
Proof.
  unfold len, is_unique. destruct (values c) as [|x [|y l]]; simpl;
    intros H; try discriminate. reflexivity.
Qed.

(** X12. On a table with a single row every column passes the identifier
    check: the cell prints its line for each column of the table, in
    order, and never the line that says that no identifier was found. *)
Theorem one_row_table_reports_every_column (s : state) (t : DataFrame) :
  df s = Some t ->
  well_formed t = true ->
  nrows t = 1 ->
  exists s',
    cell4 s = Ok tt s' /\
    out s' = out s ++
      [Text (nl ++ "🆔 Checking for Identifier Columns...")] ++
      map (fun n => Text (identifier_message n)) (columns t).
Proof.
  intros Hdf Hwf Hrows.
  assert (He : empty t = false).
  { unfold empty, ncols. rewrite Hrows. destruct t; [discriminate | reflexivity]. }
  assert (Hall : reported t = columns t).
  { unfold reported. apply filter_all. intros n Hn.
    destruct (getcol_columns t n Hn) as [c Hg].
    unfold reports_identifier. rewrite Hg. apply single_value_is_unique.
    rewrite <- Hrows. apply (well_formed_len t n c Hwf).
    now apply getcol_Some_In. }
  eexists. split; [exact (cell4_unfold s t Hdf He)|].
  rewrite prints_out, Hall. destruct t as [|[n c] rest]; [discriminate|].
  cbn [columns map]. now rewrite app_nil_r.
Qed.

Lemma one_row_table_reports_every_column_witness :
  df (loaded single) = Some single /\
  well_formed single = true /\
  nrows single = 1 /\
  exists s',
    cell4 (loaded single) = Ok tt s' /\
    out s' = out (loaded single) ++
      [Text (nl ++ "🆔 Checking for Identifier Columns...")] ++
      map (fun n => Text (identifier_message n)) (columns single).
Proof.
  split; [reflexivity|]. split; [reflexivity|]. split; [reflexivity|].
  apply (one_row_table_reports_every_column (loaded single) single);
    reflexivity.
Defined.

(** ** The overview *)

Lemma null_counts_names (t : DataFrame) : map fst (null_counts t) = columns t.
Proof.
  unfold null_counts, columns. rewrite map_map. reflexivity.
Qed.

Lemma filter_length_le_all {X : Type} (f : X -> bool) (l : list X) :
  length (filter f l) <= length l.
Proof.
  induction l as [|x l IH]; simpl; [lia|]. destruct (f x); simpl; lia.
Qed.

Lemma no_null_in_total_columns (c : Series) :
  dtype_of c = int64 \/ dtype_of c = bool_ ->
  length (filter is_null (values c)) = 0.
Proof.
  destruct c as [vs | vs | vs | vs]; simpl; intros [H | H]; try discriminate;
    induction vs as [|v vs IH]; simpl; auto.
Qed.

(** X13. On a non-empty table the overview cell ends normally and only
    prints: the shape (rows, columns), the info and describe tables, the
    column names and the null counts, each after its heading.  The null
    counts have one entry per column, in the order of the columns; no
    count exceeds the number of rows, and integer and boolean columns
    count no null. *)
Theorem overview_cell_report (s : state) (t : DataFrame) :
  df s = Some t ->
  empty t = false ->
  well_formed t = true ->
  cell2 s =
  Ok tt
     (prints
        [TextShape "📊 Shape of Dataset:" (nrows t, length (columns t));
         Text (nl ++ "🧾 Dataset Info:");
         InfoTable t;
         Text (nl ++ "📈 Summary Statistics:");
         DescribeTable t;
         Text (nl ++ "📋 Columns in Dataset:");
         NameList (columns t);
         Text (nl ++ "❓ Missing Values Check:");
         NullCountTable (null_counts t)] s) /\
  map fst (null_counts t) = columns t /\
  (forall n k, In (n, k) (null_counts t) -> k <= nrows t) /\
  (forall n c, In (n, c) t ->
               dtype_of c = int64 \/ dtype_of c = bool_ ->
               In (n, 0) (null_counts t)).
Proof.
  intros Hdf He Hwf. split; [|split; [|split]].
  - unfold cell2. unfold bind at 1. unfold global. rewrite Hdf, He.
    unfold shape, ncols, columns. rewrite length_map. reflexivity.
  - apply null_counts_names.
  - intros n k Hin. unfold null_counts in Hin.
    apply in_map_iff in Hin as [[m c] [Heq Hin]]. simpl in Heq.
    injection Heq as -> <-.
    rewrite <- (well_formed_len t n c Hwf Hin). apply filter_length_le_all.
  - intros n c Hin Hd. unfold null_counts. apply in_map_iff.
    exists (n, c). split; [|exact Hin]. simpl.
    now rewrite (no_null_in_total_columns c Hd).
Qed.

Lemma overview_cell_report_witness :
  df (loaded untargeted) = Some untargeted /\
  empty untargeted = false /\
  well_formed untargeted = true /\
  cell2 (loaded untargeted) =
  Ok tt
     (prints
        [TextShape "📊 Shape of Dataset:" (nrows untargeted, length (columns untargeted));
         Text (nl ++ "🧾 Dataset Info:");
         InfoTable untargeted;
         Text (nl ++ "📈 Summary Statistics:");
         DescribeTable untargeted;
         Text (nl ++ "📋 Columns in Dataset:");
         NameList (columns untargeted);
         Text (nl ++ "❓ Missing Values Check:");
         NullCountTable (null_counts untargeted)] (loaded untargeted)) /\
  map fst (null_counts untargeted) = columns untargeted /\
  (forall n k, In (n, k) (null_counts untargeted) -> k <= nrows untargeted) /\
  (forall n c, In (n, c) untargeted ->
               dtype_of c = int64 \/ dtype_of c = bool_ ->
               In (n, 0) (null_counts untargeted)).
Proof.
  split; [reflexivity|]. split; [reflexivity|]. split; [reflexivity|].
  apply (overview_cell_report (loaded untargeted) untargeted); reflexivity.
Defined.




(** ** Columns of the matrix and numerical columns *)

(** X17. The correlation matrix has a row and a column for every
    numerical column of the type cell and, besides those, for the boolean
    columns only: a boolean column is in the heatmap although the type
    cell lists it nowhere and the distribution cell does not plot it; a
    text column is never in the matrix. *)
Theorem matrix_columns_and_numerical (t : DataFrame) (n : string) :
  (In n (labels (corr t)) <->
   In n (columns (select_dtypes sel_number t)) \/
   exists c, In (n, c) t /\ dtype_of c = bool_) /\
  (In n (labels (corr t)) <-> exists c, In (n, c) t /\ dtype_of c <> object).
Proof.
  assert (H : In n (labels (corr t)) <->
              exists c, In (n, c) t /\ dtype_of c <> object).
  { rewrite labels_corr. unfold non_text_columns, columns.
    rewrite in_map_iff. split.
    - intros [[m c] [Hm Hin]]. simpl in Hm. subst m.
      apply filter_In in Hin as [Hin Hd]. exists c. split; [exact Hin|].
      simpl in Hd. destruct (dtype_of c); congruence.
    - intros [c [Hin Hd]]. exists (n, c). split; [reflexivity|].
      apply filter_In. split; [exact Hin|]. simpl.
      destruct (dtype_of c); congruence. }
  split; [|exact H]. rewrite H, select_dtypes_columns. split.
  - intros [c [Hin Hd]]. destruct (dtype_of c) eqn:E; try congruence.
    + left. exists c. now rewrite E.
    + left. exists c. now rewrite E.
    + right. now exists c.
  - intros [[c [Hin Hs]] | [c [Hin Hb]]]; exists c; split; try assumption.
    + destruct (dtype_of c); simpl in Hs; congruence.
    + congruence.
Qed.

(* ================================================================== *)
(** * Runs that end, and runs that do not *)
(* ================================================================== *)

(** ** The distribution cell, column by column *)

Lemma can_plot_stable (s s' : state) (t : DataFrame) (col : string) :
  dirs (disk s') = dirs (disk s) ->
  renderer s' = renderer s ->
  can_plot s' t col = can_plot s t col.
Proof.
  intros Hd Hr. unfold can_plot, draws, savable, writable, path_exists.
  now rewrite Hd, Hr.
Qed.

Lemma forallb_can_plot_stable (s s' : state) (t : DataFrame) (l : list string) :
  dirs (disk s') = dirs (disk s) ->
  renderer s' = renderer s ->
  forallb (can_plot s' t) l = forallb (can_plot s t) l.
Proof.
  intros Hd Hr. induction l as [|col l IH]; [reflexivity|].
  cbn [forallb]. now rewrite IH, (can_plot_stable s s' t col Hd Hr).
Qed.

Lemma runs_through_stable (s s' : state) (t : DataFrame) :
  dirs (disk s') = dirs (disk s) ->
  renderer s' = renderer s ->
  runs_through s' t = runs_through s t.
Proof.
  intros Hd Hr. unfold runs_through.
  now rewrite (forallb_can_plot_stable s s' t _ Hd Hr).
Qed.

Lemma plot_failure_stable (s s' : state) (t : DataFrame) (col : string) (e : exn) :
  dirs (disk s') = dirs (disk s) ->
  renderer s' = renderer s ->
  plot_failure s' t col e -> plot_failure s t col e.
Proof.
  intros Hd Hr. unfold plot_failure, draws, writable, path_exists.
  now rewrite Hd, Hr.
Qed.

Lemma draws_None (s : state) (d : drawing) (col : string) (c : Series) :
  draws s d col c = true <-> renderer s d col c = None.
Proof.
  unfold draws. destruct (renderer s d col c); split; congruence.
Qed.

Lemma plot_column_ok (s : state) (t : DataFrame) (col : string) :
  can_plot s t col = true ->
  plot_column t col s =
  Ok tt (add_out (Display (HistBox col))
           (set_disk (write_file (figure_path col) (disk s)) s)).
Proof.
  unfold can_plot, savable, plot_column. intros H.
  destruct (getcol t col) as [c|] eqn:Hg; [|discriminate].
  apply andb_true_iff in H as [H Hsave].
  apply andb_true_iff in H as [H Hr].
  apply andb_true_iff in H as [Hh Hb].
  apply andb_true_iff in Hsave as [Hw Hfit].
  apply draws_None in Hh, Hb, Hr.
  unfold savefig_drawn, bind, column, draw, savefig, show, print, modify, ret.
  now rewrite Hg, Hh, Hb, Hr, Hw, Hfit.
Qed.

Lemma plot_column_fails (s : state) (t : DataFrame) (col : string) :
  In col (columns t) ->
  can_plot s t col = false ->
  exists e, plot_column t col s = Raise e s /\ plot_failure s t col e.
Proof.
  intros Hin H. destruct (getcol_columns t col Hin) as [c Hg].
  unfold can_plot, savable in H. unfold plot_column, plot_failure.
  unfold savefig_drawn, bind, column, draw, savefig, show, print, modify, ret.
  rewrite Hg in *. unfold draws in H.
  destruct (renderer s Histplot col c) as [class|] eqn:Hh.
  - eexists. split; [reflexivity|]. exists c. split; [reflexivity|].
    left. now exists class.
  - destruct (renderer s Boxplot col c) as [class|] eqn:Hb.
    + eexists. split; [reflexivity|]. exists c. split; [reflexivity|].
      unfold draws. rewrite Hh.
      right; left. split; [reflexivity|]. now exists class.
    + destruct (renderer s Rendering col c) as [class|] eqn:Hr.
      * eexists. split; [reflexivity|]. exists c. split; [reflexivity|].
        unfold draws. rewrite Hh, Hb.
        right; right; left. split; [reflexivity|]. split; [reflexivity|].
        now exists class.
      * destruct (writable (disk s) (figure_path col)) eqn:Hw.
        -- cbn [andb] in H. rewrite H.
           eexists. split; [reflexivity|]. exists c. split; [reflexivity|].
           unfold draws. rewrite Hh, Hb, Hr.
           right; right; right; right. now repeat split.
        -- eexists. split; [reflexivity|]. exists c. split; [reflexivity|].
           unfold draws. rewrite Hh, Hb, Hr.
           right; right; right; left. now repeat split.
Qed.

Lemma distribution_loop_ok (t : DataFrame) (num : list string) (s : state) :
  forallb (can_plot s t) num = true ->
  exists s',
    for_each num (plot_column t) s = Ok tt s' /\
    out s' = out s ++ map (fun col => Display (HistBox col)) num /\
    (forall p, In p (files (disk s')) <->
               In p (files (disk s)) \/ In p (map figure_path num)) /\
    dirs (disk s') = dirs (disk s).
Proof.
  revert s. induction num as [|col rest IH]; intros s Hall.
  - exists s. split; [reflexivity|]. split; [now rewrite app_nil_r|].
    split; [|reflexivity]. intros p. simpl. tauto.
  - cbn [forallb] in Hall. apply andb_true_iff in Hall as [Hc Hrest].
    cbn [for_each]. unfold bind at 1. rewrite (plot_column_ok s t col Hc).
    destruct (IH (add_out (Display (HistBox col))
                    (set_disk (write_file (figure_path col) (disk s)) s)))
      as [s' [Hrun [Hout [Hfiles Hdirs]]]].
    { rewrite <- Hrest. now apply forallb_can_plot_stable. }
    exists s'. split; [exact Hrun|]. split; [|split].
    + rewrite Hout. cbn [out add_out set_disk map].
      now rewrite <- app_assoc.
    + intros p. rewrite Hfiles.
      cbn [disk add_out set_disk write_file files map].
      rewrite In_add. simpl. intuition congruence.
    + rewrite Hdirs. reflexivity.
Qed.

Lemma distribution_loop_fails (t : DataFrame) (num : list string) (s : state) :
  (forall col, In col num -> In col (columns t)) ->
  forallb (can_plot s t) num = false ->
  exists e s' col,
    for_each num (plot_column t) s = Raise e s' /\
    In col num /\
    plot_failure s t col e.
Proof.
  revert s. induction num as [|col rest IH]; intros s Hcols Hall;
    [discriminate|].
  cbn [forallb] in Hall. cbn [for_each]. unfold bind at 1.
  destruct (can_plot s t col) eqn:Hc.
  - rewrite (plot_column_ok s t col Hc). cbn [andb] in Hall.
    set (s1 := add_out (Display (HistBox col))
                 (set_disk (write_file (figure_path col) (disk s)) s)).
    destruct (IH s1) as [e [s' [c [Hrun [Hin Hf]]]]].
    { intros n Hn. apply Hcols. now right. }
    { rewrite <- Hall. now apply forallb_can_plot_stable. }
    exists e, s', c. split; [exact Hrun|]. split; [now right|].
    now apply (plot_failure_stable s s1).
  - destruct (plot_column_fails s t col (Hcols col (or_introl eq_refl)) Hc)
      as [e [Hrun Hf]].
    rewrite Hrun. exists e, s, col. split; [reflexivity|].
    split; [now left | exact Hf].
Qed.

Lemma cell7_unfold (s : state) (t : DataFrame) (num : list string) :
  df s = Some t ->
  empty t = false ->
  numerical s = Some num ->
  cell7 s =
  match for_each num (plot_column t)
          (add_out (Text (nl ++ "📊 Visualizing Numerical Feature Distributions...")) s)
  with
  | Ok _ s' =>
      Ok tt (add_out (Text (nl ++ "✅ All numerical distribution plots saved to 'reports/figures/'.")) s')
  | Raise e s' => Raise e s'
  end.
Proof.
  intros Hdf He Hnum. unfold cell7. unfold bind at 1. unfold global at 1.
  rewrite Hdf, He. cbn [negb]. unfold bind at 1. unfold print at 1, modify at 1.
  unfold bind at 1. unfold global at 1. cbn [numerical add_out].
  rewrite Hnum. unfold bind at 1. reflexivity.
Qed.



(** ** The cells after the load, one after the other *)

Lemma cell5_outcome (s : state) (t : DataFrame) :
  df s = Some t ->
  path_exists (disk s) figures_dir = true ->
  match cell5 s with
  | Ok _ s' =>
      wqi_usable t = true /\
      (forall p, In p (files (disk s')) <->
                 In p (files (disk s)) \/
                 (In "WQI" (columns t) /\ p = heatmap_path))
  | Raise e _ => wqi_usable t = false /\ e = KeyError "WQI"
  end.
Proof.
  intros Hdf He. unfold wqi_usable.
  destruct (contains "WQI" (columns t)) eqn:Hc.
  - rewrite (cell5_unfold s t Hdf Hc). cbn [negb orb].
    unfold getitem.
    destruct (index_of "WQI" (labels (corr t))) as [j|] eqn:Hj.
    + cbv zeta. rewrite (writable_heatmap_path (disk s) He). split.
      * apply contains_In. rewrite <- labels_corr. apply index_of_In.
        now exists j.
      * apply contains_In in Hc. intros p.
        cbn [disk add_out set_disk set_wqi_corr set_correlation write_file files].
        rewrite In_add. tauto.
    + split; [|reflexivity].
      apply contains_not_In. rewrite <- labels_corr. intros Hin.
      apply index_of_In in Hin as [j Hj']. congruence.
  - unfold cell5. unfold bind at 1. unfold global. rewrite Hdf, Hc.
    cbn [negb orb]. split; [reflexivity|].
    apply contains_not_In in Hc. intros p.
    unfold print, modify. cbn [disk add_out]. tauto.
Qed.

Lemma cell6_effect (s : state) (t : DataFrame) :
  df s = Some t ->
  path_exists (disk s) figures_dir = true ->
  exists s',
    cell6 s = Ok tt s' /\
    (forall p, In p (files (disk s')) <->
               In p (files (disk s)) \/ (In target (columns t) /\ p = target_path)).
Proof.
  intros Hdf He. unfold cell6. unfold bind at 1. unfold global. rewrite Hdf.
  destruct (contains target (columns t)) eqn:Hc.
  - apply contains_In in Hc. destruct (getcol_columns t target Hc) as [c Hg].
    unfold column. rewrite Hg. unfold bind at 1. unfold ret at 1. cbv zeta.
    unfold bind at 1. unfold savefig.
    rewrite (writable_target_path (disk s) He).
    eexists. split; [reflexivity|]. intros p.
    cbn [disk add_out set_disk write_file files]. rewrite In_add. tauto.
  - eexists. split; [reflexivity|].
    apply contains_not_In in Hc. intros p. cbn [disk add_out]. tauto.
Qed.

Lemma numerical_in_columns (t : DataFrame) (col : string) :
  In col (columns (select_dtypes sel_number t)) -> In col (columns t).
Proof.
  intros Hc. apply select_dtypes_columns in Hc as [c [Hin _]].
  change col with (fst (col, c)). now apply in_map.
Qed.

Lemma cell7_outcome (s : state) (t : DataFrame) :
  df s = Some t ->
  (empty t = false ->
   numerical s = Some (columns (select_dtypes sel_number t))) ->
  match cell7 s with
  | Ok _ s' =>
      empty t || forallb (can_plot s t) (columns (select_dtypes sel_number t))
      = true /\
      (forall p, In p (files (disk s')) <->
                 In p (files (disk s)) \/
                 (empty t = false /\
                  In p (map figure_path (columns (select_dtypes sel_number t)))))
  | Raise e _ =>
      empty t || forallb (can_plot s t) (columns (select_dtypes sel_number t))
      = false /\
      exists col,
        In col (columns (select_dtypes sel_number t)) /\
        plot_failure s t col e
  end.
Proof.
  intros Hdf Hnum. destruct (empty t) eqn:Hempty.
  - unfold cell7. unfold bind at 1. unfold global at 1.
    rewrite Hdf, Hempty. cbn [negb orb ret]. split; [reflexivity|].
    intros p. intuition discriminate.
  - rewrite (cell7_unfold s t _ Hdf Hempty (Hnum eq_refl)). cbn [orb].
    set (s0 := add_out (Text (nl ++ "📊 Visualizing Numerical Feature Distributions...")) s).
    assert (Hsame : forallb (can_plot s0 t) (columns (select_dtypes sel_number t))
                    = forallb (can_plot s t) (columns (select_dtypes sel_number t)))
      by now apply forallb_can_plot_stable.
    destruct (forallb (can_plot s t) (columns (select_dtypes sel_number t)))
      eqn:Hall.
    + destruct (distribution_loop_ok t _ s0 Hsame)
        as [s1 [Hrun [_ [Hfiles _]]]].
      rewrite Hrun. split; [reflexivity|]. intros p.
      cbn [disk add_out]. rewrite Hfiles. subst s0. cbn [disk add_out]. tauto.
    + destruct (distribution_loop_fails t _ s0 (numerical_in_columns t) Hsame)
        as [e [s1 [col [Hrun [Hin Hf]]]]].
      rewrite Hrun. split; [reflexivity|]. exists col. split; [exact Hin|].
      now apply (plot_failure_stable s s0).
Qed.

Lemma ended_same_disk {A : Type} (m : M A) (s s' : state) (a : A) :
  respects (fun x y => disk y = disk x) m -> m s = Ok a s' -> disk s' = disk s.
Proof. intros Hr Hm. specialize (Hr s). now rewrite Hm in Hr. Qed.

Lemma ended_same_renderer {A : Type} (m : M A) (s : state) :
  respects (fun x y => renderer y = renderer x) m ->
  renderer (final (m s)) = renderer s.
Proof. intros Hr. apply Hr. Qed.

Ltac frame_same_disk :=
  try (intros; reflexivity); try (intros; cbv beta in *; congruence).

Lemma analysis_same_renderer (s : state) :
  renderer (final (analysis s)) = renderer s.
Proof.
  apply ended_same_renderer. apply respects_analysis; frame_same_disk.
Qed.

(** How the cells after the load end on table [t] with the figures
    directory in place: normally exactly when [runs_through] holds, with
    the figures of the table added to the files; otherwise with KeyError
    in the correlation cell, or with the exception of a plot in the
    distribution cell. *)
Lemma analysis_outcome (s : state) (t : DataFrame) :
  df s = Some t ->
  path_exists (disk s) figures_dir = true ->
  match analysis s with
  | Ok _ s' =>
      runs_through s t = true /\
      df s' = Some t /\
      (forall p, In p (files (disk s')) <-> In p (files (disk s)) \/ figure_of t p)
  | Raise e _ =>
      runs_through s t = false /\
      ((wqi_usable t = false /\ e = KeyError "WQI") \/
       (wqi_usable t = true /\
        empty t = false /\
        exists col,
          In col (columns (select_dtypes sel_number t)) /\
          plot_failure s t col e))
  end.
Proof.
  intros Hdf He. unfold analysis, runs_through, figure_of.
  destruct (cell2_ends s t Hdf) as [s2 H2].
  unfold bind at 1. rewrite H2.
  assert (K2 : steady s s2) by (apply (ended_steady cell2 s s2 tt); [apply respects_cell2; frame_steady | exact H2]).
  assert (D2 : disk s2 = disk s) by (apply (ended_same_disk cell2 s s2 tt); [apply respects_cell2; frame_same_disk | exact H2]).
  assert (R2 : renderer s2 = renderer s) by (replace s2 with (final (cell2 s)) by (now rewrite H2); apply ended_same_renderer, respects_cell2; frame_same_disk).
  destruct (steady_keeps s s2 t K2 Hdf He) as [Hdf2 He2].
  destruct (cell3_ends s2 t Hdf2) as [s3 [H3 Hnum3]].
  unfold bind at 1. rewrite H3.
  assert (K3 : steady s2 s3) by (apply (ended_steady cell3 s2 s3 tt); [apply respects_cell3; frame_steady | exact H3]).
  assert (D3 : disk s3 = disk s2) by (apply (ended_same_disk cell3 s2 s3 tt); [apply respects_cell3; frame_same_disk | exact H3]).
  assert (R3 : renderer s3 = renderer s2) by (replace s3 with (final (cell3 s2)) by (now rewrite H3); apply ended_same_renderer, respects_cell3; frame_same_disk).
  destruct (steady_keeps s2 s3 t K3 Hdf2 He2) as [Hdf3 He3].
  destruct (cell4_ends s3 t Hdf3) as [s4 H4].
  unfold bind at 1. rewrite H4.
  assert (K4 : steady s3 s4) by (apply (ended_steady cell4 s3 s4 tt); [apply respects_cell4; frame_steady | exact H4]).
  assert (D4 : disk s4 = disk s3) by (apply (ended_same_disk cell4 s3 s4 tt); [apply respects_cell4; frame_same_disk | exact H4]).
  assert (R4 : renderer s4 = renderer s3) by (replace s4 with (final (cell4 s3)) by (now rewrite H4); apply ended_same_renderer, respects_cell4; frame_same_disk).
  assert (N4 : numerical s4 = numerical s3) by (apply (ended_same_numerical cell4 s3 s4 tt); [apply respects_cell4; frame_numerical | exact H4]).
  destruct (steady_keeps s3 s4 t K4 Hdf3 He3) as [Hdf4 He4].
  pose proof (cell5_outcome s4 t Hdf4 He4) as O5.
  unfold bind at 1.
  destruct (cell5 s4) as [[] s5 | e5 s5] eqn:H5.
  - destruct O5 as [Hw F5]. rewrite Hw. cbn [andb].
    assert (K5 : steady s4 s5) by (apply (ended_steady cell5 s4 s5 tt); [apply respects_cell5; frame_steady | exact H5]).
    assert (R5 : renderer s5 = renderer s4) by (replace s5 with (final (cell5 s4)) by (now rewrite H5); apply ended_same_renderer, respects_cell5; frame_same_disk).
    assert (N5 : numerical s5 = numerical s4) by (apply (ended_same_numerical cell5 s4 s5 tt); [apply respects_cell5; frame_numerical | exact H5]).
    destruct (steady_keeps s4 s5 t K5 Hdf4 He4) as [Hdf5 He5].
    destruct (cell6_effect s5 t Hdf5 He5) as [s6 [H6 F6]].
    unfold bind at 1. rewrite H6.
    assert (K6 : steady s5 s6) by (apply (ended_steady cell6 s5 s6 tt); [apply respects_cell6; frame_steady | exact H6]).
    assert (R6 : renderer s6 = renderer s5) by (replace s6 with (final (cell6 s5)) by (now rewrite H6); apply ended_same_renderer, respects_cell6; frame_same_disk).
    assert (N6 : numerical s6 = numerical s5) by (apply (ended_same_numerical cell6 s5 s6 tt); [apply respects_cell6; frame_numerical | exact H6]).
    destruct (steady_keeps s5 s6 t K6 Hdf5 He5) as [Hdf6 He6].
    assert (Hd6 : dirs (disk s6) = dirs (disk s)).
    { destruct K6 as [K6 _], K5 as [K5 _]. rewrite K6, K5, D4, D3, D2.
      reflexivity. }
    assert (Hr6 : renderer s6 = renderer s) by congruence.
    assert (Hnum6 : empty t = false ->
                    numerical s6 = Some (columns (select_dtypes sel_number t))).
    { intros Hne. rewrite N6, N5, N4. now apply Hnum3. }
    pose proof (cell7_outcome s6 t Hdf6 Hnum6) as O7.
    rewrite (forallb_can_plot_stable s s6 t _ Hd6 Hr6) in O7.
    destruct (cell7 s6) as [[] s7 | e7 s7] eqn:H7.
    + destruct O7 as [Hall F7]. split; [exact Hall|]. split.
      * assert (K7 : steady s6 s7) by (apply (ended_steady cell7 s6 s7 tt); [apply respects_cell7; frame_steady | exact H7]).
        destruct K7 as [_ [K7 _]]. congruence.
      * intros p. rewrite F7, F6, F5, D4, D3, D2. tauto.
    + destruct O7 as [Hall [col [Hin Hf]]]. split; [exact Hall|].
      right. split; [reflexivity|]. split.
      * destruct (empty t); [discriminate | reflexivity].
      * exists col. split; [exact Hin|].
        now apply (plot_failure_stable s s6).
  - destruct O5 as [Hw ->]. rewrite Hw. split; [reflexivity|]. left. now split.
Qed.

(** ** Runs of the whole notebook, from the load on *)

Lemma after_makedirs_frame (s : state) :
  files (disk (after_makedirs s)) = files (disk s) /\
  renderer (after_makedirs s) = renderer s /\
  source (after_makedirs s) = source s /\
  out (after_makedirs s) = out s.
Proof.
  unfold after_makedirs.
  now destruct (path_exists (disk s) figures_dir).
Qed.

Lemma after_makedirs_in_place (s : state) :
  path_exists (disk s) figures_dir = true -> after_makedirs s = s.
Proof. intros H. unfold after_makedirs. now rewrite H. Qed.

Lemma will_complete_clear (s : state) :
  clear_of_files (disk s) ->
  will_complete s =
  match source s with
  | Missing => true
  | Malformed _ => false
  | Table t => runs_through (after_makedirs s) t
  end.
Proof.
  intros Hc. unfold will_complete. rewrite (create_figures_dir_clear s Hc).
  destruct (source s); try reflexivity.
  apply runs_through_stable; [reflexivity|].
  destruct (after_makedirs_frame s) as [_ [Hr _]]. now rewrite Hr.
Qed.

Lemma run_on_missing (s : state) :
  source s = Missing ->
  exists s',
    run_all s = Ok tt s' /\
    out s' = out s ++
      [Text "❌ Error: 'data/raw/water_quality.csv' not found.";
       Text "Please ensure the dataset is in the correct directory.";
       wqi_warning;
       target_warning] /\
    files (disk s') = files (disk s).
Proof.
  intros Hm. rewrite run_all_unfold, cell1_unfold, Hm.
  destruct (after_makedirs_frame s) as [Hf [_ [_ Ho]]].
  eexists. split; [reflexivity|]. split.
  - cbn [out add_out set_df]. rewrite <- !app_assoc. cbn [app].
    now rewrite Ho.
  - cbn [disk add_out set_df]. exact Hf.
Qed.

Lemma run_on_table (s : state) (t : DataFrame) :
  source s = Table t ->
  match run_all s with
  | Ok _ s' =>
      runs_through (after_makedirs s) t = true /\
      df s' = Some t /\
      (forall p, In p (files (disk s')) <-> In p (files (disk s)) \/ figure_of t p)
  | Raise e _ =>
      runs_through (after_makedirs s) t = false /\
      ((wqi_usable t = false /\ e = KeyError "WQI") \/
       (wqi_usable t = true /\
        empty t = false /\
        exists col,
          In col (columns (select_dtypes sel_number t)) /\
          plot_failure (after_makedirs s) t col e))
  end.
Proof.
  intros Hsrc. rewrite run_all_unfold, cell1_unfold, Hsrc.
  set (s1 := add_out (Text "✅ Dataset loaded successfully.")
               (set_df t (after_makedirs s))).
  pose proof (analysis_outcome s1 t eq_refl (after_makedirs_exists s)) as O.
  assert (Hd : dirs (disk s1) = dirs (disk (after_makedirs s))) by reflexivity.
  assert (Hr : renderer s1 = renderer (after_makedirs s)) by reflexivity.
  rewrite (runs_through_stable (after_makedirs s) s1 t Hd Hr) in O.
  assert (Hf : files (disk s1) = files (disk s)) by apply after_makedirs_frame.
  destruct (analysis s1) as [[] s' | e s'].
  - destruct O as [Hrun [Hdf F]]. split; [exact Hrun|]. split; [exact Hdf|].
    intros p. rewrite F, Hf. tauto.
  - destruct O as [Hrun [O | [Hw [Hne [col [Hin Hp]]]]]];
      (split; [exact Hrun|]); [now left | right].
    split; [exact Hw|]. split; [exact Hne|]. exists col. split; [exact Hin|].
    now apply (plot_failure_stable (after_makedirs s) s1).
Qed.

Lemma run_all_frame (s : state) :
  dirs (disk (final (run_all s))) = dirs (disk (after_makedirs s)) /\
  source (final (run_all s)) = source s /\
  renderer (final (run_all s)) = renderer s.
Proof.
  destruct (after_makedirs_frame s) as [_ [Hr [Hs _]]].
  rewrite run_all_unfold, cell1_unfold.
  destruct (source s) eqn:E; cbn [final];
    try match goal with
        | |- context [analysis ?s1] =>
            destruct (analysis_steady s1) as [Hd [_ Hsrc]];
            rewrite Hd, Hsrc, (analysis_same_renderer s1)
        end;
    cbn [disk source renderer add_out set_df]; now rewrite Hs, Hr.
Qed.

Lemma run_completes_when (s : state) :
  clear_of_files (disk s) ->
  (completes (run_all s) <-> will_complete s = true).
Proof.
  intros Hc. rewrite (will_complete_clear s Hc).
  destruct (source s) as [|pe|t] eqn:Hsrc.
  - destruct (run_on_missing s Hsrc) as [s' [Hrun _]]. rewrite Hrun.
    split; [reflexivity | intros _; exact I].
  - rewrite run_all_unfold, cell1_unfold, Hsrc.
    split; [intros [] | discriminate].
  - pose proof (run_on_table s t Hsrc) as O.
    destruct (run_all s) as [[] s' | e s'].
    + destruct O as [Hrun _]. split; [now intros _ | intros _; exact I].
    + destruct O as [Hrun _]. rewrite Hrun.
      split; [intros [] | discriminate].
Qed.



(** The run on the table [readings], which has both target columns, ends
    normally. *)
Example readings_run_completes :
  will_complete (fresh blank (Table readings)) = true /\
  completes (run_all (fresh blank (Table readings))).
Proof.
  split; [reflexivity|]. apply run_completes_when; [|reflexivity].
  split; intros [].
Qed.

(** A numerical column named ["Ca/Mg"]: its plot would go to a directory
    that does not exist, and the run ends in the last cell with the
    error of [savefig]. *)
Example slash_in_column_name_run_fails :
  will_complete (fresh blank (Table ratios)) = false /\
  exists s',
    run_all (fresh blank (Table ratios)) =
    Raise (FileNotFoundError "reports/figures/distribution_Ca/Mg.png") s'.
Proof.
  split; [reflexivity|]. eexists. vm_compute. reflexivity.
Qed.

(** A numerical column whose name has 252 characters: the name of its
    figure file is longer than the file system takes, and the run ends in
    the last cell with OSError. *)
Example long_column_name_run_fails :
  will_complete (fresh blank (Table long_named)) = false /\
  exists s',
    run_all (fresh blank (Table long_named)) =
    Raise (OSError (figure_path long_name)) s'.
Proof.
  split; [vm_compute; reflexivity|]. eexists. vm_compute. reflexivity.
Qed.

(** In front of a plotting library that raises ValueError on a column
    without a value, the run on a table with such a numerical column ends
    in the last cell, in the first drawing call. *)
Example column_without_value_run_fails :
  will_complete (in_front_of refuses_no_value (fresh blank (Table unmeasured)))
  = false /\
  exists s',
    run_all (in_front_of refuses_no_value (fresh blank (Table unmeasured))) =
    Raise (DrawingError Histplot "ValueError") s'.
Proof.
  split; [vm_compute; reflexivity|]. eexists. vm_compute. reflexivity.
Qed.

(** ** The exceptions of a run *)



(** ** The files of a run that ends normally *)

Lemma numerical_figures (t : DataFrame) (p : string) :
  In p (map figure_path (columns (select_dtypes sel_number t))) <->
  exists col c,
    In (col, c) t /\
    (dtype_of c = int64 \/ dtype_of c = float64) /\
    p = figure_path col.
Proof.
  rewrite in_map_iff. split.
  - intros [col [<- Hin]]. apply select_dtypes_columns in Hin as [c [Hin Hs]].
    exists col, c. split; [exact Hin|]. split; [|reflexivity].
    destruct (dtype_of c); simpl in Hs; try discriminate; auto.
  - intros [col [c [Hin [Hd ->]]]]. exists col. split; [reflexivity|].
    apply select_dtypes_columns. exists c. split; [exact Hin|].
    destruct Hd as [-> | ->]; reflexivity.
Qed.

(** X14. On a disk where no regular file stands at ["reports"] or
    ["reports/figures"], a run on a table that ends normally ends with
    [df] bound to the table, and the files it leaves are those that were
    there before together with: the correlation heatmap when the table
    has a column WQI; the target plot when it has the target column; and,
    when the table is not empty, one distribution plot for each integer
    or floating-point column.  Text and boolean columns get no
    distribution plot. *)
Theorem completed_run_files (s : state) (t : DataFrame) :
  clear_of_files (disk s) ->
  source s = Table t ->
  completes (run_all s) ->
  exists s',
    run_all s = Ok tt s' /\
    df s' = Some t /\
    (forall p, In p (files (disk s')) <->
               In p (files (disk s)) \/
               (In "WQI" (columns t) /\ p = heatmap_path) \/
               (In target (columns t) /\ p = target_path) \/
               (empty t = false /\
                exists col c,
                  In (col, c) t /\
                  (dtype_of c = int64 \/ dtype_of c = float64) /\
                  p = figure_path col)).
Proof.
  intros _ Hsrc Hend. pose proof (run_on_table s t Hsrc) as O.
  destruct (run_all s) as [[] s' | e s']; [|destruct Hend].
  destruct O as [_ [Hdf F]]. exists s'. split; [reflexivity|].
  split; [exact Hdf|]. intros p. rewrite F. unfold figure_of.
  rewrite numerical_figures. tauto.
Qed.

Lemma completed_run_files_witness :
  clear_of_files (disk (fresh blank (Table untargeted))) /\
  source (fresh blank (Table untargeted)) = Table untargeted /\
  completes (run_all (fresh blank (Table untargeted))) /\
  exists s',
    run_all (fresh blank (Table untargeted)) = Ok tt s' /\
    df s' = Some untargeted /\
    (forall p, In p (files (disk s')) <->
               In p (files (disk (fresh blank (Table untargeted)))) \/
               (In "WQI" (columns untargeted) /\ p = heatmap_path) \/
               (In target (columns untargeted) /\ p = target_path) \/
               (empty untargeted = false /\
                exists col c,
                  In (col, c) untargeted /\
                  (dtype_of c = int64 \/ dtype_of c = float64) /\
                  p = figure_path col)).
Proof.
  assert (Hc : clear_of_files (disk (fresh blank (Table untargeted)))).
  { split; intros []. }
  assert (He : completes (run_all (fresh blank (Table untargeted)))).
  { vm_compute. exact I. }
  split; [exact Hc|]. split; [reflexivity|]. split; [exact He|].
  apply (completed_run_files (fresh blank (Table untargeted)) untargeted);
    [exact Hc | reflexivity | exact He].
Defined.

(** The run on [readings] leaves four files: the heatmap, the target
    plot, and the distribution plots of EC and WQI. *)
Example readings_run_files :
  forall p,
    In p (files (disk (final (run_all (fresh blank (Table readings)))))) <->
    In p [heatmap_path; target_path; figure_path "EC"; figure_path "WQI"].
Proof.
  intros p. pose proof (run_on_table (fresh blank (Table readings)) readings eq_refl) as O.
  destruct (run_all (fresh blank (Table readings))) as [[] s' | e s'].
  - destruct O as [_ [_ F]]. cbn [final]. rewrite F. unfold figure_of.
    cbn [files disk fresh blank In].
    change (columns (select_dtypes sel_number readings)) with ["EC"; "WQI"].
    cbn [map In]. split.
    + intros [[] | [[_ ->] | [[_ ->] | [_ [<- | [<- | []]]]]]]; tauto.
    + intros [<- | [<- | [<- | [<- | []]]]].
      * right; left. split; [|reflexivity]. right; left; reflexivity.
      * right; right; left. split; [|reflexivity].
        right; right; left; reflexivity.
      * right; right; right. split; [reflexivity|]. now left.
      * right; right; right. split; [reflexivity|]. right; now left.
  - destruct O as [O _]. discriminate O.
Qed.

(** ** Running the notebook again *)

Lemma restart_frame (s : state) :
  disk (restart s) = disk s /\
  source (restart s) = source s /\
  renderer (restart s) = renderer s.
Proof. now repeat split. Qed.

(** X15. On a disk where no regular file stands at ["reports"] or
    ["reports/figures"], when a run of the notebook ends normally, a
    second run on a restarted kernel, on the disk that the first run
    left and with the same dataset file and plotting library, ends
    normally as well and leaves the same files and the same directories:
    the figures are written over, nothing piles up. *)
Theorem second_run_leaves_same_files (s : state) :
  clear_of_files (disk s) ->
  completes (run_all s) ->
  completes (run_all (restart (final (run_all s)))) /\
  (forall p,
      In p (files (disk (final (run_all (restart (final (run_all s))))))) <->
      In p (files (disk (final (run_all s))))) /\
  dirs (disk (final (run_all (restart (final (run_all s))))))
  = dirs (disk (final (run_all s))).
Proof.
  intros _ Hend.
  destruct (run_all_frame s) as [Hd [Hs Hr]].
  set (s2 := restart (final (run_all s))) in *.
  assert (He : path_exists (disk s2) figures_dir = true).
  { unfold s2. cbn [disk restart]. unfold path_exists. rewrite Hd.
    apply after_makedirs_exists. }
  assert (Hd2 : dirs (disk (final (run_all s2))) = dirs (disk s2)).
  { destruct (run_all_frame s2) as [H _].
    now rewrite H, (after_makedirs_in_place s2 He). }
  split; [|split; [|exact Hd2]].
  - destruct (source s) as [|pe|t] eqn:Hsrc.
    + destruct (run_on_missing s2) as [s' [Hrun _]]; [exact Hs|].
      now rewrite Hrun.
    + rewrite run_all_unfold, cell1_unfold, Hsrc in Hend. destruct Hend.
    + pose proof (run_on_table s t Hsrc) as O1.
      pose proof (run_on_table s2 t Hs) as O2.
      rewrite (after_makedirs_in_place s2 He) in O2.
      rewrite (runs_through_stable (after_makedirs s) s2 t) in O2;
        [|exact Hd | unfold s2; cbn [renderer restart]; rewrite Hr;
                     symmetry; apply after_makedirs_frame].
      destruct (run_all s) as [[] s1 | e s1]; [|destruct Hend].
      destruct O1 as [Hrun _].
      destruct (run_all s2) as [[] s3 | e s3]; [exact I|].
      destruct O2 as [O2 _]. congruence.
  - intros p. destruct (source s) as [|pe|t] eqn:Hsrc.
    + destruct (run_on_missing s2) as [s' [Hrun [_ Hf]]]; [exact Hs|].
      rewrite Hrun. cbn [final]. now rewrite Hf.
    + rewrite run_all_unfold, cell1_unfold, Hsrc in Hend. destruct Hend.
    + pose proof (run_on_table s t Hsrc) as O1.
      pose proof (run_on_table s2 t Hs) as O2.
      rewrite (after_makedirs_in_place s2 He) in O2.
      rewrite (runs_through_stable (after_makedirs s) s2 t) in O2;
        [|exact Hd | unfold s2; cbn [renderer restart]; rewrite Hr;
                     symmetry; apply after_makedirs_frame].
      unfold s2 in *. clear s2.
      destruct (run_all s) as [[] s1 | e s1]; [|destruct Hend].
      destruct O1 as [Hrun [_ F1]]. cbn [final] in *.
      destruct (run_all (restart s1)) as [[] s3 | e s3].
      * destruct O2 as [_ [_ F2]]. cbn [final].
        rewrite F2. cbn [disk restart]. rewrite F1. tauto.
      * destruct O2 as [O2 _]. congruence.
Qed.

Lemma second_run_leaves_same_files_witness :
  clear_of_files (disk (fresh blank (Table untargeted))) /\
  completes (run_all (fresh blank (Table untargeted))) /\
  completes (run_all (restart (final (run_all (fresh blank (Table untargeted)))))) /\
  (forall p,
      In p (files (disk (final (run_all
             (restart (final (run_all (fresh blank (Table untargeted))))))))) <->
      In p (files (disk (final (run_all (fresh blank (Table untargeted))))))) /\
  dirs (disk (final (run_all
         (restart (final (run_all (fresh blank (Table untargeted))))))))
  = dirs (disk (final (run_all (fresh blank (Table untargeted))))).
Proof.
  assert (Hc : clear_of_files (disk (fresh blank (Table untargeted)))).
  { split; intros []. }
  assert (He : completes (run_all (fresh blank (Table untargeted)))).
  { vm_compute. exact I. }
  split; [exact Hc|]. split; [exact He|].
  apply (second_run_leaves_same_files (fresh blank (Table untargeted)));
    [exact Hc | exact He].
Defined.
